(** * LiveVerify popup: analysis client, result card and webcam controller

    A shallow embedding of the TypeScript sources of the popup
    ([utils/api.ts], [types.ts], [components/ResultCard.tsx],
    [components/WebcamPreview.tsx], [App.tsx]) and the properties of its
    specification that were checked against them.

    The first part of the file holds the embedding, one module per source
    file; the second part holds the lemmas and theorems. *)

From stdpp Require Import gmap strings list.
From Stdlib Require Import Ascii DecimalString.
From Stdlib Require QArith Qround.

(* ===================================================================== *)
(** * Part I. The embedding                                               *)
(* ===================================================================== *)

(** ** JavaScript values and control flow used by the sources *)

Module JS.

(** The double-quote character, for messages that quote a button label. *)
Definition quot : string := String (Ascii.ascii_of_nat 34) EmptyString.

(** Truthiness of a string: every string but the empty one. *)
Definition truthy (s : string) : bool :=
  match s with
  | EmptyString => false
  | String _ _ => true
  end.

(** [a || d] where [a] is an optional string property ([None] is
    [undefined]) and [d] a string: the left operand when it is truthy. *)
Definition or_else (a : option string) (d : string) : string :=
  match a with
  | Some s => if truthy s then s else d
  | None => d
  end.

(** [r?.flag || false] where [r] is an optional object with a boolean
    property. *)
Definition flag_or_false {A : Type} (flag : A → bool) (r : option A) : bool :=
  match r with
  | Some x => flag x
  | None => false
  end.

(** [String.prototype.startsWith] and [String.prototype.includes]. *)
Fixpoint startsWith (needle hay : string) : bool :=
  match needle, hay with
  | EmptyString, _ => true
  | String _ _, EmptyString => false
  | String c n, String d h => if Ascii.eqb c d then startsWith n h else false
  end.

Fixpoint includes (needle hay : string) : bool :=
  startsWith needle hay ||
  match hay with
  | EmptyString => false
  | String _ h => includes needle h
  end.

(** Conversion of a non-negative integer to a string, as a template
    literal does it: plain decimal digits. *)
Definition string_of_nat (n : nat) : string :=
  NilEmpty.string_of_uint (Nat.to_uint n).

(** A thrown value.  An object carries an optional [name] and an optional
    string [message] ([None]: the property is absent); anything that is not
    an object is a primitive. *)
Inductive Thrown : Type :=
| ThrownObject (name : option string) (message : option string)
| ThrownPrimitive (v : string).

(** [new Error(msg)] *)
Definition new_Error (msg : string) : Thrown :=
  ThrownObject (Some "Error") (Some msg).

(** How an awaited call ends: with a value (the promise resolves), with a
    thrown value (it rejects), or not at all (it never settles, and whoever
    awaits it stays suspended). *)
Inductive Completion (A : Type) : Type :=
| Normal (a : A)
| Abrupt (e : Thrown)
| Pending.
Arguments Normal {A} a.
Arguments Abrupt {A} e.
Arguments Pending {A}.

(** An [async] function body over a mutable state [S].  The popup runs on
    one event loop, so a body is a state transformer that also says how it
    completed. *)
Definition Async (S A : Type) : Type := S → Completion A * S.

Definition ret {S A : Type} (a : A) : Async S A := λ s, (Normal a, s).

Definition throw {S A : Type} (e : Thrown) : Async S A := λ s, (Abrupt e, s).

Definition bind {S A B : Type} (c : Async S A) (k : A → Async S B) : Async S B :=
  λ s, match c s with
       | (Normal a, s') => k a s'
       | (Abrupt e, s') => (Abrupt e, s')
       | (Pending, s') => (Pending, s')
       end.

(** [await p] for a promise whose outcome the environment fixes. *)
Definition await {S A : Type} (p : Completion A) : Async S A := λ s, (p, s).

(** [try { body } catch (error) { handler }] *)
Definition try_catch {S A : Type} (body : Async S A) (handler : Thrown → Async S A)
  : Async S A :=
  λ s, match body s with
       | (Normal a, s') => (Normal a, s')
       | (Abrupt e, s') => handler e s'
       | (Pending, s') => (Pending, s')
       end.

(** [try { body } finally { fin }]: [fin] runs on both exits; when it
    completes normally the completion of [body] stands.  A body that stays
    suspended never reaches [fin]. *)
Definition try_finally {S A : Type} (body : Async S A) (fin : Async S unit)
  : Async S A :=
  λ s, match body s with
       | (Pending, s') => (Pending, s')
       | (r, s') =>
           match fin s' with
           | (Normal _, s'') => (r, s'')
           | (Abrupt e, s'') => (Abrupt e, s'')
           | (Pending, s'') => (Pending, s'')
           end
       end.

(** State access. *)
Definition get {S : Type} : Async S S := λ s, (Normal s, s).
Definition modify {S : Type} (f : S → S) : Async S unit := λ s, (Normal tt, f s).

(** [if (c) { body }] with no [else]. *)
Definition when {S : Type} (c : bool) (body : Async S unit) : Async S unit :=
  if c then body else ret tt.

End JS.

Declare Scope async_scope.
Delimit Scope async_scope with async.
Notation "x <- c ;; k" := (JS.bind c (λ x, k))
  (at level 100, c at next level, right associativity) : async_scope.
Notation "c ;; k" := (JS.bind c (λ _, k))
  (at level 100, right associativity) : async_scope.

(** ** [types.ts] *)

Module Types.

(** [size: number[] | number] *)
Inductive Size (number : Type) : Type :=
| SizeArray (dims : list number)
| SizeNumber (n : number).
Arguments SizeArray {number} dims.
Arguments SizeNumber {number} n.

Record ImageInfo (number : Type) : Type := mkImageInfo {
  image_format : string;
  image_size : Size number
}.
Arguments mkImageInfo {number} _ _.
Arguments image_format {number} _.
Arguments image_size {number} _.

Record MediaInfo (number : Type) : Type := mkMediaInfo {
  media_type : string;
  media_format : string;
  media_size : Size number
}.
Arguments mkMediaInfo {number} _ _ _.
Arguments media_type {number} _.
Arguments media_format {number} _.
Arguments media_size {number} _.

(** [interface AnalysisResult].  The label is a string at run time: the
    union ['Real' | 'Fake' | 'Suspicious'] is only a cast in [api.ts]. *)
Record AnalysisResult (number : Type) : Type := mkAnalysisResult {
  success : bool;
  label : string;
  confidence : number;
  timestamp : string;
  image_info : option (ImageInfo number);
  media_info : option (MediaInfo number)
}.
Arguments mkAnalysisResult {number} _ _ _ _ _ _.
Arguments success {number} _.
Arguments label {number} _.
Arguments confidence {number} _.
Arguments timestamp {number} _.
Arguments image_info {number} _.
Arguments media_info {number} _.

(** [interface ApiResponse]; the optional properties are [None] when the
    backend leaves them out. *)
Record ApiResponse (number : Type) : Type := mkApiResponse {
  api_success : bool;
  api_label : string;
  api_confidence : number;
  api_timestamp : string;
  api_image_info : option (ImageInfo number);
  api_media_info : option (MediaInfo number);
  api_error : option string;
  api_message : option string
}.
Arguments mkApiResponse {number} _ _ _ _ _ _ _ _.
Arguments api_success {number} _.
Arguments api_label {number} _.
Arguments api_confidence {number} _.
Arguments api_timestamp {number} _.
Arguments api_image_info {number} _.
Arguments api_media_info {number} _.
Arguments api_error {number} _.
Arguments api_message {number} _.

End Types.

(** ** [utils/api.ts] *)

Module Api.
Import JS Types.
Local Open Scope async_scope.

(** The second argument of [fetch].  The body is the object handed to
    [JSON.stringify], kept as its list of string properties. *)
Record RequestInit : Type := mkRequestInit {
  method : string;
  headers : list (string * string);
  body : list (string * string)
}.

(** What [fetch] resolves with: the status line and what reading the body
    as JSON would give. *)
Record Response (number : Type) : Type := mkResponse {
  status : nat;
  body_json : Completion (ApiResponse number)
}.
Arguments mkResponse {number} _ _.
Arguments status {number} _.
Arguments body_json {number} _.

(** [response.ok]: the status is in the range 200..299. *)
Definition ok {number : Type} (r : Response number) : bool :=
  (200 <=? status r) && (status r <=? 299).

(** The effects of the client on the network, in the order they happen. *)
Inductive Effect : Type :=
| Fetch (url : string) (init : RequestInit)
| ReadBody.

Definition API_BASE_URL : string := "http://localhost:5000".

Section Client.

Context {number : Type}.

(** The clock ([new Date().toISOString()]) and the backend behind
    [fetch]. *)
Variable now : string.
Variable backend : string → RequestInit → Completion (Response number).

Definition fetch (url : string) (init : RequestInit)
  : Async (list Effect) (Response number) :=
  λ log, (backend url init, log ++ [Fetch url init]).

Definition json (r : Response number)
  : Async (list Effect) (ApiResponse number) :=
  λ log, (body_json r, log ++ [ReadBody]).

Definition analyzeImage (imageData : string)
  : Async (list Effect) (AnalysisResult number) :=
  response <- fetch (API_BASE_URL +:+ "/analyze")
    {| method := "POST";
       headers := [("Content-Type", "application/json")];
       body := [("image", imageData); ("timestamp", now)] |} ;;
  if negb (ok response) then
    throw (new_Error ("Backend error: " +:+ string_of_nat (status response)))
  else
    data <- json response ;;
    if negb (api_success data) then
      throw (new_Error (or_else (api_message data) "Analysis failed"))
    else
      ret {| success := api_success data;
             label := api_label data;
             confidence := api_confidence data;
             timestamp := api_timestamp data;
             image_info := api_image_info data;
             media_info := None |}.

Definition verifyMedia (mediaData mimeType : string)
  : Async (list Effect) (AnalysisResult number) :=
  response <- fetch (API_BASE_URL +:+ "/verify-media")
    {| method := "POST";
       headers := [("Content-Type", "application/json")];
       body := [("media", mediaData); ("type", mimeType); ("timestamp", now)] |} ;;
  if negb (ok response) then
    throw (new_Error ("Backend error: " +:+ string_of_nat (status response)))
  else
    data <- json response ;;
    if negb (api_success data) then
      throw (new_Error (or_else (api_message data) "Verification failed"))
    else
      ret {| success := api_success data;
             label := api_label data;
             confidence := api_confidence data;
             timestamp := api_timestamp data;
             image_info := None;
             media_info := api_media_info data |}.

End Client.

End Api.

(** ** What a component renders *)

Module Dom.

(** The click handlers the popup attaches. *)
Inductive Handler : Type :=
| StartCamera
| StopCamera
| Analyze
| OpenPermissionPage.

Record Props : Type := mkProps {
  className : string;
  style : list (string * string);
  onClick : option Handler;
  disabled : bool
}.

#[warnings="-register-all"]
Inductive Node : Type :=
| Text (s : string)
| Element (tag : string) (props : Props) (children : list Node).

(** An element that only has a class. *)
Definition el (tag cls : string) (children : list Node) : Node :=
  Element tag {| className := cls; style := []; onClick := None; disabled := false |}
          children.

(** [{cond && <node/>}]: nothing is rendered when [cond] is falsy. *)
Definition and_then (cond : bool) (n : Node) : list Node :=
  if cond then [n] else [].

(** Some node of the tree, the root included, satisfies [p]. *)
Fixpoint any_node (p : Node → bool) (n : Node) : bool :=
  p n ||
  match n with
  | Text _ => false
  | Element _ _ children => existsb (any_node p) children
  end.

End Dom.

(** ** [components/ResultCard.tsx] *)

Module ResultCard.
Import JS Types Dom.

Record Display : Type := mkDisplay {
  icon : string;
  text : string;
  color : string;
  bgColor : string;
  borderColor : string
}.

Section Card.

(** [String.prototype.toLowerCase], the lower-casing of the platform the
    popup runs on.  The card calls it and compares its result with three
    literals; what it does to a string is the platform's business, so it is
    a parameter here. *)
Variable toLowerCase : string → string.

(** [getResultDisplay], as a function of the label it switches on. *)
Definition getResultDisplay (label : string) : Display :=
  let l := toLowerCase label in
  if String.eqb l "real" then
    {| icon := "✅"; text := "Real"; color := "text-green-400";
       bgColor := "bg-green-900/20"; borderColor := "border-green-500/30" |}
  else if String.eqb l "fake" then
    {| icon := "❌"; text := "Fake"; color := "text-red-400";
       bgColor := "bg-red-900/20"; borderColor := "border-red-500/30" |}
  else if String.eqb l "suspicious" then
    {| icon := "⚠️"; text := "Suspicious"; color := "text-yellow-400";
       bgColor := "bg-yellow-900/20"; borderColor := "border-yellow-500/30" |}
  else
    {| icon := "❓"; text := "Unknown"; color := "text-gray-400";
       bgColor := "bg-gray-900/20"; borderColor := "border-gray-500/30" |}.

(** The class of the progress bar, chosen by the nested conditional in the
    JSX. *)
Definition barColor (label : string) : string :=
  if String.eqb (toLowerCase label) "real" then "bg-green-500"
  else if String.eqb (toLowerCase label) "fake" then "bg-red-500"
  else "bg-yellow-500".

Context {number : Type}.

(** How a number is turned into text, in a template literal or as a JSX
    child. *)
Variable toString : number → string.

(** [`${size[i]}`]; outside the array the element is [undefined]. *)
Definition dimension (dims : list number) (i : nat) : string :=
  match dims !! i with
  | Some n => toString n
  | None => "undefined"
  end.

Definition sizeText (s : Size number) : string :=
  match s with
  | SizeArray dims => dimension dims 0 +:+ "×" +:+ dimension dims 1
  | SizeNumber n => toString n
  end.

Definition is_some {A : Type} (o : option A) : bool :=
  match o with Some _ => true | None => false end.

Definition imageInfoRow (info : option (ImageInfo number)) : list Node :=
  match info with
  | Some i =>
      [el "div" EmptyString
          [Text "Format: "; Text (image_format i); Text " • Size: ";
           Text (sizeText (image_size i))]]
  | None => []
  end.

Definition mediaInfoRow (info : option (MediaInfo number)) : list Node :=
  match info with
  | Some m =>
      [el "div" EmptyString
          [Text "Type: "; Text (media_type m); Text " • Format: ";
           Text (media_format m)]]
  | None => []
  end.

Definition progressBar (result : AnalysisResult number) : Node :=
  el "div" "mt-3 bg-gray-700 rounded-full h-2"
     [Element "div"
        {| className := "h-2 rounded-full transition-all duration-500 "
                        +:+ barColor (label result);
           style := [("width", toString (confidence result) +:+ "%")];
           onClick := None;
           disabled := false |}
        []].

Definition ResultCard (result : AnalysisResult number) : Node :=
  let display := getResultDisplay (label result) in
  el "div" ("fade-in-up border rounded-lg p-4 " +:+ bgColor display +:+ " "
            +:+ borderColor display)
     [el "div" "text-center"
         ([el "div" "text-2xl mb-2" [Text (icon display)];
           el "h3" ("text-lg font-semibold mb-1 " +:+ color display)
              [Text (text display)];
           el "div" "text-sm text-gray-400"
              [Text "Confidence: "; Text (toString (confidence result)); Text "%"];
           progressBar result]
          ++ and_then (is_some (image_info result) || is_some (media_info result))
               (el "div" "mt-3 pt-3 border-t border-gray-600 text-xs text-gray-500"
                   (imageInfoRow (image_info result)
                    ++ mediaInfoRow (media_info result))))].

End Card.

End ResultCard.

(** ** [components/WebcamPreview.tsx], with the status line of [App.tsx] *)

Module Webcam.
Import JS Dom.
Local Open Scope async_scope.

(** *** The browser and extension interfaces the component talks to *)

Inductive PermissionStatus : Type := unknown | requesting | granted | denied.

Inductive ReadyState : Type := live | ended.

(** A [MediaStream] is known by the identities of its tracks; what state a
    track is in lives in the shared store of the component state, so that
    every holder of the stream sees a track being stopped. *)
Definition MediaStream : Type := list nat.

Definition getTracks (stream : MediaStream) : list nat := stream.

Record VideoElement : Type := mkVideo {
  srcObject : option MediaStream
}.

Record Range : Type := mkRange { ideal : nat; max : nat }.

Record VideoConstraints : Type := mkVideoConstraints {
  width : Range;
  height : Range;
  facingMode : string;
  frameRate : Range
}.

Record MediaStreamConstraints : Type := mkConstraints {
  video : VideoConstraints;
  audio : bool
}.

Record QueryInfo : Type := mkQueryInfo { active : bool; currentWindow : bool }.

(** [{ id?: number }] *)
Record Tab : Type := mkTab { tab_id : option nat }.

(** What the popup sends to the content script of the host page, and what
    it reads from the answer; a property the answer lacks reads as
    falsy. *)
Record RelayRequest : Type := mkRelayRequest { request_action : string }.

Record RelayReply : Type := mkRelayReply {
  reply_success : bool;
  reply_granted : bool
}.

(** An unsolicited message of [chrome.runtime.onMessage]. *)
Record Message : Type := mkMessage {
  action : string;
  msg_granted : bool;
  msg_error : option string
}.

Record TabsApi : Type := mkTabsApi {
  query : QueryInfo → Completion (list Tab);
  sendMessage : nat → RelayRequest → Completion (option RelayReply)
}.

Record Runtime : Type := mkRuntime {
  runtime_id : option string;
  getURL : string → string
}.

Record Chrome : Type := mkChrome {
  runtime : option Runtime;
  tabs : option TabsApi
}.

Inductive VideoEvent : Type := loadedmetadata | error.

(** Everything outside the component: the extension API when there is one,
    [navigator.mediaDevices.getUserMedia] when the browser has it, the
    events the video element will fire (with the time in milliseconds
    after the listeners were attached) and how [video.play()] ends. *)
Record Env : Type := mkEnv {
  getChromeAPI : option Chrome;
  getUserMedia : option (MediaStreamConstraints → Completion MediaStream);
  videoEvents : list (N * VideoEvent);
  play : Completion unit
}.

(** *** The state of the component *)

Record State : Type := mkState {
  isCameraActive : bool;
  cameraError : option string;
  isRequestingCamera : bool;
  permissionStatus : PermissionStatus;
  streamRef : option MediaStream;
  videoRef : option VideoElement;
  (** the [MediaStreamTrack] objects in existence *)
  trackStore : gmap nat ReadyState;
  (** the [status] of [App], which [onStatusUpdate] sets *)
  status : string;
  (** the pages opened with [chrome.tabs.create] *)
  createdTabs : list string
}.

Definition with_isCameraActive (b : bool) (s : State) : State :=
  mkState b (cameraError s) (isRequestingCamera s) (permissionStatus s)
          (streamRef s) (videoRef s) (trackStore s) (status s) (createdTabs s).

Definition with_cameraError (e : option string) (s : State) : State :=
  mkState (isCameraActive s) e (isRequestingCamera s) (permissionStatus s)
          (streamRef s) (videoRef s) (trackStore s) (status s) (createdTabs s).

Definition with_isRequestingCamera (b : bool) (s : State) : State :=
  mkState (isCameraActive s) (cameraError s) b (permissionStatus s)
          (streamRef s) (videoRef s) (trackStore s) (status s) (createdTabs s).

Definition with_permissionStatus (p : PermissionStatus) (s : State) : State :=
  mkState (isCameraActive s) (cameraError s) (isRequestingCamera s) p
          (streamRef s) (videoRef s) (trackStore s) (status s) (createdTabs s).

Definition with_streamRef (r : option MediaStream) (s : State) : State :=
  mkState (isCameraActive s) (cameraError s) (isRequestingCamera s)
          (permissionStatus s) r (videoRef s) (trackStore s) (status s)
          (createdTabs s).

Definition with_videoRef (v : option VideoElement) (s : State) : State :=
  mkState (isCameraActive s) (cameraError s) (isRequestingCamera s)
          (permissionStatus s) (streamRef s) v (trackStore s) (status s)
          (createdTabs s).

Definition with_trackStore (t : gmap nat ReadyState) (s : State) : State :=
  mkState (isCameraActive s) (cameraError s) (isRequestingCamera s)
          (permissionStatus s) (streamRef s) (videoRef s) t (status s)
          (createdTabs s).

Definition with_status (m : string) (s : State) : State :=
  mkState (isCameraActive s) (cameraError s) (isRequestingCamera s)
          (permissionStatus s) (streamRef s) (videoRef s) (trackStore s) m
          (createdTabs s).

Definition with_createdTabs (l : list string) (s : State) : State :=
  mkState (isCameraActive s) (cameraError s) (isRequestingCamera s)
          (permissionStatus s) (streamRef s) (videoRef s) (trackStore s)
          (status s) l.

(** The state setters of the component and the callback of [App]. *)
Definition setIsCameraActive (b : bool) : Async State unit :=
  modify (with_isCameraActive b).
Definition setCameraError (e : option string) : Async State unit :=
  modify (with_cameraError e).
Definition setIsRequestingCamera (b : bool) : Async State unit :=
  modify (with_isRequestingCamera b).
Definition setPermissionStatus (p : PermissionStatus) : Async State unit :=
  modify (with_permissionStatus p).
Definition onStatusUpdate (m : string) : Async State unit :=
  modify (with_status m).

(** [track.stop()] *)
Definition stop (store : gmap nat ReadyState) (track : nat) : gmap nat ReadyState :=
  <[track := ended]> store.

(** [stream.getTracks().forEach(track => track.stop())] *)
Definition stopTracks (stream : MediaStream) : Async State unit :=
  modify (λ s, with_trackStore (foldl stop (trackStore s) (getTracks stream)) s).

(** The tracks of a stream that [getUserMedia] has just handed out are
    live. *)
Definition start (store : gmap nat ReadyState) (track : nat) : gmap nat ReadyState :=
  <[track := live]> store.

(** The state the popup starts in. *)
Definition initial (video : option VideoElement) : State :=
  mkState false None false unknown None video ∅ "Ready to start camera" [].

(** *** Waiting for the metadata of the video *)

(** The promise built in [startCamera]: its settlement, [None] while it is
    pending, and which of the two listeners are attached to the video. *)
Record Waiter : Type := mkWaiter {
  settled : option (Completion unit);
  onLoadedMetadata : bool;
  onError : bool
}.

(** [resolve()] and [reject(e)] settle a pending promise and do nothing to
    a settled one. *)
Definition settle (c : Completion unit) (w : Waiter) : Waiter :=
  match settled w with
  | None => mkWaiter (Some c) (onLoadedMetadata w) (onError w)
  | Some _ => w
  end.

(** The two [removeEventListener] calls every callback starts with. *)
Definition removeListeners (w : Waiter) : Waiter :=
  mkWaiter (settled w) false false.

(** The executor: both listeners attached, the timer armed. *)
Definition listening : Waiter := mkWaiter None true true.

(** What the event loop can run for this promise. *)
Inductive Task : Type :=
| Dispatch (e : VideoEvent)
| TimerExpired.

Definition runTask (task : Task) (w : Waiter) : Waiter :=
  match task with
  | Dispatch loadedmetadata =>
      if onLoadedMetadata w then settle (Normal tt) (removeListeners w) else w
  | Dispatch error =>
      if onError w
      then settle (Abrupt (new_Error "Video loading failed")) (removeListeners w)
      else w
  | TimerExpired =>
      settle (Abrupt (new_Error "Video loading timeout")) (removeListeners w)
  end.

(** How each task settles a promise that still has both listeners. *)
Definition outcome (task : Task) : Completion unit :=
  match settled (runTask task listening) with
  | Some c => c
  | None => Pending
  end.

(** The delay handed to [setTimeout], in milliseconds. *)
Definition TIMEOUT : N := 10000.

(** The task queue is ordered by time; a task that becomes due at the time
    of a queued one runs after it. *)
Fixpoint enqueue (x : N * Task) (q : list (N * Task)) : list (N * Task) :=
  match q with
  | [] => [x]
  | y :: q' => if (fst x <? fst y)%N then x :: q else y :: enqueue x q'
  end.

(** [setTimeout] puts its callback in the queue first; the events of the
    video join as they are fired. *)
Definition taskQueue (events : list (N * VideoEvent)) : list (N * Task) :=
  foldl (λ q e, enqueue (fst e, Dispatch (snd e)) q) [(TIMEOUT, TimerExpired)] events.

(** The event loop runs the queue until the promise is settled, and tells
    when that was and how; [None] when the queue ends with the promise
    still pending. *)
Fixpoint runQueue (q : list (N * Task)) (w : Waiter) : option (N * Completion unit) :=
  match q with
  | [] => None
  | (t, task) :: q' =>
      let w' := runTask task w in
      match settled w' with
      | Some c => Some (t, c)
      | None => runQueue q' w'
      end
  end.

Definition metadataWait (events : list (N * VideoEvent)) : option (N * Completion unit) :=
  runQueue (taskQueue events) listening.

Section Component.

Variable env : Env.

(** [chrome?.runtime?.id !== undefined] *)
Definition isExtension : bool :=
  match getChromeAPI env with
  | Some chrome =>
      match runtime chrome with
      | Some r => match runtime_id r with Some _ => true | None => false end
      | None => false
      end
  | None => false
  end.

(** [chrome?.tabs] *)
Definition chromeTabs : option TabsApi :=
  match getChromeAPI env with
  | Some chrome => tabs chrome
  | None => None
  end.

(** [tab?.id] when it is truthy: the tab exists and its id is a number
    other than 0. *)
Definition truthyId (tab : option Tab) : option nat :=
  match tab with
  | Some t =>
      match tab_id t with
      | Some (S n) => Some (S n)
      | _ => None
      end
  | None => None
  end.

Definition requestPermissionViaContentScript : Async State bool :=
  match (if isExtension then chromeTabs else None) with
  | None => ret false
  | Some api =>
      try_catch
        (tabList <- await (query api (mkQueryInfo true true)) ;;
         match truthyId (head tabList) with
         | None => throw (new_Error "No active tab found")
         | Some id =>
             response <- await (sendMessage api id
                                  (mkRelayRequest "requestCameraPermission")) ;;
             ret (flag_or_false reply_success response)
         end)
        (λ _, ret false)
  end.

Definition checkPermissionStatus : Async State bool :=
  match (if isExtension then chromeTabs else None) with
  | None => ret false
  | Some api =>
      try_catch
        (tabList <- await (query api (mkQueryInfo true true)) ;;
         match truthyId (head tabList) with
         | None => ret false
         | Some id =>
             response <- await (sendMessage api id
                                  (mkRelayRequest "checkCameraPermission")) ;;
             ret (flag_or_false reply_granted response)
         end)
        (λ _, ret false)
  end.

(** The ways the exchange with the content script of the host page can
    fail, for the request that is to be sent: the extension or its tabs API
    is missing, the query for the active tab is rejected, there is no
    active tab with an id, or sending the message is rejected. *)
Inductive RelayFailure (request : RelayRequest) : Prop :=
| NoTabsApi :
    isExtension = false ∨ chromeTabs = None → RelayFailure request
| QueryRejected (api : TabsApi) (e : Thrown) :
    chromeTabs = Some api →
    query api (mkQueryInfo true true) = Abrupt e →
    RelayFailure request
| NoActiveTab (api : TabsApi) (tabList : list Tab) :
    chromeTabs = Some api →
    query api (mkQueryInfo true true) = Normal tabList →
    truthyId (head tabList) = None →
    RelayFailure request
| SendRejected (api : TabsApi) (tabList : list Tab) (id : nat) (e : Thrown) :
    chromeTabs = Some api →
    query api (mkQueryInfo true true) = Normal tabList →
    truthyId (head tabList) = Some id →
    sendMessage api id request = Abrupt e →
    RelayFailure request.

Definition openPermissionPage : Async State unit :=
  match getChromeAPI env with
  | Some chrome =>
      match runtime chrome, tabs chrome with
      | Some r, Some _ =>
          when isExtension
            (modify (λ s, with_createdTabs
                            (createdTabs s ++ [getURL r "permission.html"]) s))
      | _, _ => ret tt
      end
  | None => ret tt
  end.

Definition constraints : MediaStreamConstraints :=
  {| video := {| width := mkRange 320 640;
                 height := mkRange 240 480;
                 facingMode := "user";
                 frameRate := mkRange 15 30 |};
     audio := false |}.

(** [await new Promise<void>(...)] in [startCamera]. *)
Definition awaitMetadata : Async State unit :=
  s <- get ;;
  match videoRef s with
  | None => throw (new_Error "Video element not available")
  | Some _ =>
      match metadataWait (videoEvents env) with
      | Some (_, c) => await c
      | None => await Pending
      end
  end.

(** The [try] block of [startCamera]. *)
Definition acquire : Async State unit :=
  setIsRequestingCamera true ;;
  onStatusUpdate "Checking camera permission..." ;;
  setCameraError None ;;
  setPermissionStatus requesting ;;
  match getUserMedia env with
  | None => throw (new_Error "Camera API not supported in this browser")
  | Some gum =>
      when isExtension
        (hasPermission <- checkPermissionStatus ;;
         when (negb hasPermission)
           (onStatusUpdate "Requesting camera permission via content script..." ;;
            permissionGranted <- requestPermissionViaContentScript ;;
            when (negb permissionGranted)
              (setPermissionStatus denied ;;
               throw (new_Error "Permission request failed. Please try opening the permission page manually.")))) ;;
      onStatusUpdate "Accessing camera..." ;;
      stream <- await (gum constraints) ;;
      modify (λ s, with_trackStore (foldl start (trackStore s) (getTracks stream)) s) ;;
      s <- get ;;
      match videoRef s with
      | None => ret tt
      | Some _ =>
          modify (with_videoRef (Some (mkVideo (Some stream)))) ;;
          modify (with_streamRef (Some stream)) ;;
          awaitMetadata ;;
          s <- get ;;
          match videoRef s with
          | None => ret tt
          | Some _ =>
              await (play env) ;;
              setIsCameraActive true ;;
              setPermissionStatus granted ;;
              onStatusUpdate ("Camera ready - Click " +:+ quot +:+ "Scan Frame"
                              +:+ quot +:+ " to analyze")
          end
      end
  end.

(** The [switch] of the [catch] block: the message to show, whether the
    permission button is wanted, and whether the permission is recorded as
    denied. *)
Record Classified : Type := mkClassified {
  errorMessage : string;
  showPermissionButton : bool;
  marksDenied : bool
}.

Definition classify (e : Thrown) : Classified :=
  match e with
  | ThrownObject (Some name) message =>
      let errorName := name in
      if String.eqb errorName "NotAllowedError" then
        mkClassified "Camera permission denied. Please allow camera access." true true
      else if String.eqb errorName "NotFoundError" then
        mkClassified "No camera found on this device" false false
      else if String.eqb errorName "NotReadableError" then
        mkClassified "Camera is already in use by another application" false false
      else if String.eqb errorName "OverconstrainedError" then
        mkClassified "Camera does not support the required settings" false false
      else if String.eqb errorName "SecurityError" then
        mkClassified "Camera access blocked due to security restrictions" true false
      else if String.eqb errorName "AbortError" then
        mkClassified "Camera access was cancelled" false false
      else
        match message with
        | Some m => mkClassified m (includes "Permission request failed" m) false
        | None => mkClassified "Camera access failed" false false
        end
  | _ => mkClassified "Camera access failed" false false
  end.

(** The [catch] block of [startCamera]. *)
Definition recover (e : Thrown) : Async State unit :=
  let c := classify e in
  when (marksDenied c) (setPermissionStatus denied) ;;
  setCameraError (Some (errorMessage c)) ;;
  onStatusUpdate (errorMessage c) ;;
  setIsCameraActive false ;;
  when (showPermissionButton c && isExtension)
    (setCameraError (Some (errorMessage c +:+ " Click " +:+ quot
                           +:+ "Open Permission Page" +:+ quot
                           +:+ " below to grant access."))).

Definition startCamera : Async State unit :=
  try_finally (try_catch acquire recover) (setIsRequestingCamera false).

Definition stopCamera : Async State unit :=
  s <- get ;;
  match streamRef s with
  | Some stream => stopTracks stream ;; modify (with_streamRef None)
  | None => ret tt
  end ;;
  s <- get ;;
  match videoRef s with
  | Some _ => modify (with_videoRef (Some (mkVideo None)))
  | None => ret tt
  end ;;
  setIsCameraActive false ;;
  setCameraError None ;;
  setPermissionStatus unknown ;;
  onStatusUpdate "Camera stopped".

(** The listener that the effect of a render registers with
    [chrome.runtime.onMessage].  [seen] is the [permissionStatus] of that
    render, a constant the listener has captured: it keeps testing this
    value until the effect of a later render, one in which the permission
    state has changed, takes the listener away and registers a new one. *)
Definition handleMessage (seen : PermissionStatus) (message : Message)
  : Async State unit :=
  when (String.eqb (action message) "cameraPermissionUpdate")
    (if msg_granted message then
       setPermissionStatus granted ;;
       when (match seen with denied => true | _ => false end)
         (setCameraError None ;;
          onStatusUpdate ("Camera permission granted! Click " +:+ quot
                          +:+ "Start Camera" +:+ quot +:+ " to continue."))
     else
       setPermissionStatus denied ;;
       setCameraError (Some (or_else (msg_error message) "Camera permission denied"))).

(** The effect: the render of the state [rendered] registers a listener,
    which it only does in an extension. *)
Definition listener (rendered : State) : option (Message → Async State unit) :=
  if isExtension then Some (handleMessage (permissionStatus rendered)) else None.

(** A message of the extension runtime arrives while the listener of the
    render of [rendered] is the one in place.  [rendered] is the current
    state once every update has been rendered and the effects have run; in
    between it lags behind the state the message finds. *)
Definition receive (rendered : State) (message : Message) : Async State unit :=
  match listener rendered with
  | Some handle => handle message
  | None => ret tt
  end.

(** The cleanup of the effect that runs when the component unmounts. *)
Definition unmount : Async State unit :=
  s <- get ;;
  match streamRef s with
  | Some stream => stopTracks stream
  | None => ret tt
  end.

(** What the component renders, from its state and the [isAnalyzing]
    property.  The drawings inside the [svg] elements are left out. *)
Definition permissionButton : Node :=
  Element "button"
    {| className := "mt-2 text-xs bg-blue-600 hover:bg-blue-700 px-2 py-1 rounded transition-colors";
       style := []; onClick := Some OpenPermissionPage; disabled := false |}
    [Text "Open Permission Page"].

Definition errorAlert (s : State) (cameraError : string) : Node :=
  el "div" "bg-red-900/50 border border-red-600 text-red-200 px-3 py-2 rounded text-sm"
     [el "div" "flex items-start space-x-2"
         [el "span" EmptyString [Text "‚ùå"];
          el "div" "flex-1"
             ([el "p" "font-semibold" [Text "Camera Error"];
               el "p" "text-xs mt-1" [Text cameraError]]
              ++ and_then
                   (match permissionStatus s with denied => true | _ => false end
                    && isExtension)
                   permissionButton)]].

Definition requestingNotice : Node :=
  el "div" "bg-blue-900/50 border border-blue-600 text-blue-200 px-3 py-2 rounded text-sm"
     [el "div" "flex items-center space-x-2"
         [el "svg" "animate-spin w-4 h-4" [];
          el "span" EmptyString [Text "Requesting camera permission..."]]].

Definition videoContainer (s : State) : Node :=
  el "div" "video-container relative"
     ([Element "video"
         {| className := "w-full h-48 object-cover bg-black rounded-lg";
            style := [("display", if isCameraActive s then "block" else "none")];
            onClick := None; disabled := false |}
         []]
      ++ and_then (negb (isCameraActive s))
           (el "div" "w-full h-48 flex items-center justify-center bg-gray-800 rounded-lg"
               [el "div" "text-center text-gray-400"
                   [el "svg" "w-12 h-12 mx-auto mb-2" [];
                    el "p" "text-sm" [Text "Camera Preview"]]])
      ++ [el "canvas" "hidden" []]).

Definition cameraControls (s : State) (isAnalyzing : bool) : Node :=
  el "div" "space-y-2"
     [if negb (isCameraActive s) then
        Element "button"
          {| className := "w-full flex items-center justify-center space-x-2 bg-blue-600 hover:bg-blue-700 disabled:bg-gray-600 disabled:cursor-not-allowed text-white px-4 py-2 rounded-lg transition-colors";
             style := []; onClick := Some StartCamera;
             disabled := isRequestingCamera s |}
          [el "svg" (if isRequestingCamera s then "animate-spin w-4 h-4" else EmptyString) [];
           el "span" EmptyString
              [Text (if isRequestingCamera s then "Requesting Access..." else "Start Camera")]]
      else
        el "div" "space-y-2"
           [Element "button"
              {| className := "w-full flex items-center justify-center space-x-2 bg-indigo-600 hover:bg-indigo-700 disabled:opacity-50 disabled:cursor-not-allowed text-white px-4 py-2 rounded-lg transition-colors";
                 style := []; onClick := Some Analyze; disabled := isAnalyzing |}
              [el "svg" (if isAnalyzing then "animate-spin w-4 h-4" else EmptyString) [];
               el "span" EmptyString
                  [Text (if isAnalyzing then "Analyzing..." else "Scan Frame")]];
            Element "button"
              {| className := "w-full text-gray-400 hover:text-white px-4 py-1 text-sm transition-colors";
                 style := []; onClick := Some StopCamera; disabled := false |}
              [Text "Stop Camera"]]].

(** [cameraError && ...]: [null] and the empty string render nothing. *)
Definition shownError (s : State) : option string :=
  match cameraError s with
  | Some m => if truthy m then Some m else None
  | None => None
  end.

Definition render (s : State) (isAnalyzing : bool) : Node :=
  el "div" "space-y-3"
     (match shownError s with
      | Some m => [errorAlert s m]
      | None => []
      end
      ++ and_then (match permissionStatus s with requesting => true | _ => false end)
           requestingNotice
      ++ [videoContainer s; cameraControls s isAnalyzing]
      ++ and_then (negb (isCameraActive s)
                   && match shownError s with Some _ => false | None => true end)
           (el "div" "text-xs text-gray-500 text-center"
               [Text ("Click " +:+ quot +:+ "Start Camera" +:+ quot
                      +:+ " to begin deepfake detection")])).

(** The button that opens the permission page is on screen. *)
Definition is_permissionButton (n : Node) : bool :=
  match n with
  | Element tag props _ =>
      String.eqb tag "button"
      && match onClick props with Some OpenPermissionPage => true | _ => false end
  | Text _ => false
  end.

Definition offersPermissionPage (s : State) (isAnalyzing : bool) : bool :=
  any_node is_permissionButton (render s isAnalyzing).

End Component.

End Webcam.

(** ** Sample inputs *)

Module Samples.
Import JS Types Api Webcam.

(** A lower-casing for the sample runs.  It does what
    [String.prototype.toLowerCase] does on text made of ASCII characters
    and of the KELVIN SIGN: the letters [A]..[Z] move to [a]..[z], the
    Kelvin sign (U+212A, in UTF-8 the bytes E2 84 AA) becomes [k], every
    other byte is kept. *)
Definition is_upper (c : ascii) : bool :=
  let n := nat_of_ascii c in (65 <=? n) && (n <=? 90).

Definition lower_char (c : ascii) : ascii :=
  if is_upper c then ascii_of_nat (nat_of_ascii c + 32) else c.

Definition isKelvin (c d e : ascii) : bool :=
  Ascii.eqb c (ascii_of_nat 226) && Ascii.eqb d (ascii_of_nat 132)
  && Ascii.eqb e (ascii_of_nat 170).

Fixpoint lowerCase (s : string) : string :=
  match s with
  | EmptyString => EmptyString
  | String c r =>
      match r with
      | String d (String e t) =>
          if isKelvin c d e then String "k" (lowerCase t)
          else String (lower_char c) (lowerCase r)
      | _ => String (lower_char c) (lowerCase r)
      end
  end.

(** The label [F], [A], KELVIN SIGN, [E]. *)
Definition kelvinLabel : string :=
  String "F" (String "A"
    (String (ascii_of_nat 226) (String (ascii_of_nat 132) (String (ascii_of_nat 170)
      (String "E" EmptyString))))).

(** A backend that answers every request with the same response. *)
Definition answering {number : Type} (r : Response number)
  : string → RequestInit → Completion (Response number) :=
  λ _ _, Normal r.

Definition fakeResponse : ApiResponse nat :=
  mkApiResponse true "Fake" 87 "T" None None None None.

Definition badImageResponse : ApiResponse nat :=
  mkApiResponse false EmptyString 0 "T" None None None (Some "bad image").

Definition emptyMessageResponse : ApiResponse nat :=
  mkApiResponse false EmptyString 0 "T" None None None (Some EmptyString).

Definition serverError : Response nat :=
  mkResponse 500 (Normal fakeResponse).

(** An extension popup over a page whose content script has the camera
    permission. *)
Definition grantingRelay : TabsApi :=
  mkTabsApi (λ _, Normal [mkTab (Some 7)])
            (λ _ _, Normal (Some (mkRelayReply true true))).

Definition extension : Chrome :=
  mkChrome (Some (mkRuntime (Some "liveverify")
                            (λ path, "chrome-extension://liveverify/" +:+ path)))
           (Some grantingRelay).

(** [getUserMedia] rejects with a [DOMException] of the given name. *)
Definition rejecting (name : string) : Env :=
  mkEnv (Some extension)
        (Some (λ _, Abrupt (ThrownObject (Some name) (Some "rejected"))))
        [] (Normal tt).

(** [getUserMedia] hands out a stream of two tracks; the video fires the
    given events. *)
Definition streaming (events : list (N * VideoEvent)) : Env :=
  mkEnv (Some extension) (Some (λ _, Normal [1; 2])) events (Normal tt).

(** An extension popup with no tab to talk to. *)
Definition noTab : Env :=
  mkEnv (Some (mkChrome (Some (mkRuntime (Some "liveverify") (λ path, path)))
                        (Some (mkTabsApi (λ _, Normal [])
                                         (λ _ _, Normal None)))))
        (Some (λ _, Normal [1; 2])) [] (Normal tt).

Definition popup : State := initial (Some (mkVideo None)).

End Samples.

(** ** [components/UploadForm.tsx] *)

Module UploadForm.
Import JS.
Local Open Scope async_scope.

(** The properties of a [File] the popup reads. *)
Record File : Type := mkFile {
  file_name : string;
  file_size : N;
  file_type : string
}.

Record State : Type := mkState {
  selectedFile : option File;
  (** [fileInputRef.current.value]; [None] while the ref is not attached *)
  fileInput : option string
}.

(** [event.target.files?.[0]]: the file list may be missing or empty. *)
Definition handleFileSelect (files : option (list File)) : Async State unit :=
  match (match files with Some l => head l | None => None end) with
  | Some file => modify (λ s, mkState (Some file) (fileInput s))
  | None => modify (λ s, mkState None (fileInput s))
  end.

(** [handleUpload], over the two properties the parent passes in.  The
    callback runs on the state of the parent. *)
Definition handleUpload {S : Type} (isProcessing : bool)
    (onFileUpload : File → Async S unit) (form : State) : Async S unit :=
  match selectedFile form with
  | Some file => if negb isProcessing then onFileUpload file else ret tt
  | None => ret tt
  end.

Definition clearFile : Async State unit :=
  modify (λ s, mkState None (fileInput s)) ;;
  s <- get ;;
  match fileInput s with
  | Some _ => modify (λ s, mkState (selectedFile s) (Some EmptyString))
  | None => ret tt
  end.

(** [disabled={!selectedFile || isProcessing}] of the upload button, and
    its text. *)
Definition uploadDisabled (form : State) (isProcessing : bool) : bool :=
  negb (match selectedFile form with Some _ => true | None => false end)
  || isProcessing.

Definition uploadLabel (isProcessing : bool) : string :=
  if isProcessing then "Processing..." else "Verify Media".

Definition string_of_N (n : N) : string :=
  NilEmpty.string_of_uint (N.to_uint n).

(** [x.toFixed(2)] for [x >= 0]: the integer [n] for which [n / 100] is
    closest to [x], the larger one on a tie, printed with two decimals. *)
Definition toFixed2 (x : QArith_base.Q) : string :=
  let n := Z.to_N (Qround.Qfloor
                     (QArith_base.Qplus
                        (QArith_base.Qmult x (QArith_base.inject_Z 100))
                        (QArith_base.Qmake 1 2))) in
  string_of_N (n `div` 100) +:+ "." +:+ string_of_N ((n `mod` 100) `div` 10)
  +:+ string_of_N (n `mod` 10).

(** [formatFileSize].  A file size is an integer below [2^53], and
    dividing it by 1024 only moves its binary exponent, so the quotients
    are the exact ones. *)
Definition formatFileSize (bytes : N) : string :=
  toFixed2 (QArith_base.Qdiv
              (QArith_base.Qdiv (QArith_base.inject_Z (Z.of_N bytes))
                                (QArith_base.inject_Z 1024))
              (QArith_base.inject_Z 1024))
  +:+ " MB".

End UploadForm.

(** ** [App.tsx] *)

Module App.
Import JS Types Api.
Local Open Scope async_scope.

(** The video element as [handleWebcamAnalysis] reads it: its intrinsic
    size and the picture it shows. *)
Record Video : Type := mkVideo {
  videoWidth : nat;
  videoHeight : nat;
  picture : string
}.

(** [ctx.drawImage(video, dx, dy, dWidth, dHeight)] *)
Record Drawing : Type := mkDrawing {
  drawn : Video;
  dx : nat;
  dy : nat;
  dWidth : nat;
  dHeight : nat
}.

Record Canvas : Type := mkCanvas {
  canvas_width : nat;
  canvas_height : nat;
  drawing : option Drawing
}.

(** What a [FileReader] fires after [readAsDataURL]. *)
Inductive ReaderEvent : Type :=
| onload (result : string)
| onerror.

(** Everything outside the component: the clock and the backend of the
    client, the 2d context of the canvas ([false]: [getContext] gives
    [null], and drawing on it throws [nullContext]), the encoder of the
    canvas, the file reader, and which thrown values are instances of
    [Error]. *)
Record Env (number : Type) : Type := mkEnv {
  now : string;
  backend : string → RequestInit → Completion (Response number);
  getContext : bool;
  nullContext : Thrown;
  toDataURL : Canvas → string → QArith_base.Q → string;
  readAsDataURL : UploadForm.File → ReaderEvent;
  instanceofError : Thrown → bool
}.
Arguments mkEnv {number} _ _ _ _ _ _ _.
Arguments now {number} _.
Arguments backend {number} _.
Arguments getContext {number} _.
Arguments nullContext {number} _.
Arguments toDataURL {number} _.
Arguments readAsDataURL {number} _.
Arguments instanceofError {number} _.

Record State (number : Type) : Type := mkState {
  result : option (AnalysisResult number);
  isAnalyzing : bool;
  status : string;
  videoRef : option Video;
  canvasRef : option Canvas;
  (** what the client has done on the network so far *)
  network : list Effect
}.
Arguments mkState {number} _ _ _ _ _ _.
Arguments result {number} _.
Arguments isAnalyzing {number} _.
Arguments status {number} _.
Arguments videoRef {number} _.
Arguments canvasRef {number} _.
Arguments network {number} _.

Section Component.

Context {number : Type}.
Variable env : Env number.

Definition setResult (r : option (AnalysisResult number)) : Async (State number) unit :=
  modify (λ s, mkState r (isAnalyzing s) (status s) (videoRef s) (canvasRef s)
                       (network s)).

Definition setIsAnalyzing (b : bool) : Async (State number) unit :=
  modify (λ s, mkState (result s) b (status s) (videoRef s) (canvasRef s)
                       (network s)).

Definition setStatus (m : string) : Async (State number) unit :=
  modify (λ s, mkState (result s) (isAnalyzing s) m (videoRef s) (canvasRef s)
                       (network s)).

Definition setCanvas (c : Canvas) : Async (State number) unit :=
  modify (λ s, mkState (result s) (isAnalyzing s) (status s) (videoRef s) (Some c)
                       (network s)).

(** A call of the client, run on the network log of the popup. *)
Definition call {A : Type} (c : Async (list Effect) A) : Async (State number) A :=
  λ s, match c (network s) with
       | (r, log) =>
           (r, mkState (result s) (isAnalyzing s) (status s) (videoRef s)
                       (canvasRef s) log)
       end.

(** [error instanceof Error ? error.message : 'Unknown error'] *)
Definition errorText (e : Thrown) : string :=
  if instanceofError env e then
    match e with
    | ThrownObject _ (Some m) => m
    | _ => EmptyString
    end
  else "Unknown error".

(** The [try] block of [handleWebcamAnalysis]. *)
Definition capture (video : Video) : Async (State number) unit :=
  setIsAnalyzing true ;;
  setStatus "Capturing frame..." ;;
  setCanvas (mkCanvas (videoWidth video) (videoHeight video) None) ;;
  if negb (getContext env) then throw (nullContext env)
  else
    let canvas :=
      mkCanvas (videoWidth video) (videoHeight video)
               (Some (mkDrawing video 0 0 (videoWidth video) (videoHeight video))) in
    setCanvas canvas ;;
    let imageData := toDataURL env canvas "image/jpeg" (QArith_base.Qmake 8 10) in
    setStatus "Analyzing image for deepfakes..." ;;
    analysisResult <- call (analyzeImage (now env) (backend env) imageData) ;;
    setResult (Some analysisResult) ;;
    setStatus "Analysis complete".

Definition handleWebcamAnalysis : Async (State number) unit :=
  s <- get ;;
  match videoRef s, canvasRef s with
  | Some video, Some _ =>
      if isAnalyzing s then ret tt
      else
        try_finally
          (try_catch (capture video)
             (λ error, setStatus ("Analysis failed: " +:+ errorText error)))
          (setIsAnalyzing false)
  | _, _ => ret tt
  end.

(** The promise around the [FileReader]. *)
Definition readFile (file : UploadForm.File) : Completion string :=
  match readAsDataURL env file with
  | onload result => Normal result
  | onerror => Abrupt (new_Error "Failed to read file")
  end.

Definition handleFileUpload (file : UploadForm.File) : Async (State number) unit :=
  try_finally
    (try_catch
       (setIsAnalyzing true ;;
        setStatus "Processing file..." ;;
        base64Data <- await (readFile file) ;;
        setStatus "Analyzing media for deepfakes..." ;;
        analysisResult <- call (verifyMedia (now env) (backend env) base64Data
                                  (UploadForm.file_type file)) ;;
        setResult (Some analysisResult) ;;
        setStatus "Analysis complete")
       (λ error, setStatus ("Upload failed: " +:+ errorText error)))
    (setIsAnalyzing false).

Definition updateStatus (message : string) : Async (State number) unit :=
  setStatus message.

(** A click on the upload button: [UploadForm] gets [handleFileUpload] and
    [isAnalyzing] of the current render as its properties. *)
Definition uploadClicked (form : UploadForm.State) : Async (State number) unit :=
  s <- get ;;
  UploadForm.handleUpload (isAnalyzing s) handleFileUpload form.

End Component.

(** The state the popup starts in, with its two refs attached. *)
Definition initial {number : Type} (video : Video) : State number :=
  mkState None false "Ready to start camera" (Some video)
          (Some (mkCanvas 300 150 None)) [].

End App.

(** ** Reading a rendered tree *)

Module View.
Import Dom.

Definition sameHandler (a b : Handler) : bool :=
  match a, b with
  | StartCamera, StartCamera => true
  | StopCamera, StopCamera => true
  | Analyze, Analyze => true
  | OpenPermissionPage, OpenPermissionPage => true
  | _, _ => false
  end.

Definition isButton (h : Handler) (n : Node) : bool :=
  match n with
  | Element tag props _ =>
      String.eqb tag "button"
      && match onClick props with Some h' => sameHandler h h' | None => false end
  | Text _ => false
  end.

(** The tree has a button that runs [h] when clicked. *)
Definition hasButton (h : Handler) (tree : Node) : bool :=
  any_node (isButton h) tree.

(** The tree has a disabled button that would run [h]. *)
Definition hasDisabledButton (h : Handler) (tree : Node) : bool :=
  any_node (λ n, isButton h n
                 && match n with
                    | Element _ props _ => disabled props
                    | Text _ => false
                    end) tree.

(** The tree has a text node that reads [t]. *)
Definition hasText (t : string) (tree : Node) : bool :=
  any_node (λ n, match n with Text s => String.eqb s t | Element _ _ _ => false end)
           tree.

End View.

(** ** More sample inputs *)

Module MoreSamples.
Import JS Types Api.

(** The errors the popup meets are objects with a name and a message. *)
Definition isErrorObject (e : Thrown) : bool :=
  match e with
  | ThrownObject (Some _) (Some _) => true
  | _ => false
  end.

(** The network is down: [fetch] rejects. *)
Definition offline : string → RequestInit → Completion (Response nat) :=
  λ _ _, Abrupt (ThrownObject (Some "TypeError") (Some "Failed to fetch")).

Definition camera : App.Video := App.mkVideo 320 240 "frame-1".

(** The encoder names the picture and the size of the canvas. *)
Definition encoder (c : App.Canvas) (type : string) (quality : QArith_base.Q) : string :=
  match App.drawing c with
  | Some d => "data:" +:+ type +:+ ";base64," +:+ App.picture (App.drawn d)
  | None => "data:,"
  end.

Definition reader (file : UploadForm.File) : App.ReaderEvent :=
  if String.eqb (UploadForm.file_name file) "broken.mp4" then App.onerror
  else App.onload ("data:" +:+ UploadForm.file_type file +:+ ";base64,AAAA").

Definition popupEnv (answer : Response nat) : App.Env nat :=
  App.mkEnv "2024-05-01T10:00:00.000Z" (Samples.answering answer) true
            (ThrownObject (Some "TypeError") (Some "ctx is null"))
            encoder reader isErrorObject.

(** A backend that never answers. *)
Definition silentEnv : App.Env nat :=
  App.mkEnv "2024-05-01T10:00:00.000Z" (λ _ _, Pending) true
            (ThrownObject (Some "TypeError") (Some "ctx is null"))
            encoder reader isErrorObject.

Definition clip : UploadForm.File := UploadForm.mkFile "clip.mp4" 3145728 "video/mp4".

Definition broken : UploadForm.File := UploadForm.mkFile "broken.mp4" 10 "video/mp4".

(** An extension popup whose host page refuses the camera. *)
Definition refusingRelay : Webcam.TabsApi :=
  Webcam.mkTabsApi (λ _, Normal [Webcam.mkTab (Some 7)])
                   (λ _ _, Normal (Some (Webcam.mkRelayReply false false))).

Definition refusedEnv : Webcam.Env :=
  Webcam.mkEnv
    (Some (Webcam.mkChrome
             (Some (Webcam.mkRuntime (Some "liveverify")
                      (λ path, "chrome-extension://liveverify/" +:+ path)))
             (Some refusingRelay)))
    (Some (λ _, Normal [1; 2])) [] (Normal tt).

(** A plain web page: no extension API at all. *)
Definition webPage (events : list (N * Webcam.VideoEvent)) : Webcam.Env :=
  Webcam.mkEnv None (Some (λ _, Normal [4; 5])) events (Normal tt).

End MoreSamples.

(** ** The two requests of the client *)

Module Wire.
Import JS Types Api.

Definition analyzeUrl : string := API_BASE_URL +:+ "/analyze".

Definition analyzeInit (now imageData : string) : RequestInit :=
  {| method := "POST";
     headers := [("Content-Type", "application/json")];
     body := [("image", imageData); ("timestamp", now)] |}.

Definition verifyUrl : string := API_BASE_URL +:+ "/verify-media".

Definition verifyInit (now mediaData mimeType : string) : RequestInit :=
  {| method := "POST";
     headers := [("Content-Type", "application/json")];
     body := [("media", mediaData); ("type", mimeType); ("timestamp", now)] |}.

(** The body of a response is read when the response came and its status
    is in 200..299. *)
Definition bodyRead {number : Type} (answer : Completion (Response number)) : bool :=
  match answer with
  | Normal r => ok r
  | _ => false
  end.

End Wire.

(* ===================================================================== *)
(** * Part II. Properties                                                 *)
(* ===================================================================== *)

Import JS Types Dom.

(** ** Strings *)

Lemma startsWith_append (n s : string) : startsWith n (n +:+ s) = true.
Proof.
  induction n as [|c n IH]; simpl; [done|].
  by rewrite Ascii.eqb_refl.
Qed.

Lemma includes_startsWith (n h : string) :
  startsWith n h = true → includes n h = true.
Proof. destruct h; simpl; intros ->; done. Qed.

Lemma includes_prefix (n s : string) : includes n (n +:+ s) = true.
Proof. apply includes_startsWith, startsWith_append. Qed.

Lemma append_cons (c : ascii) (a s : string) :
  String c a +:+ s = String c (a +:+ s).
Proof. reflexivity. Qed.

Lemma includes_cons (n : string) (c : ascii) (h : string) :
  includes n h = true → includes n (String c h) = true.
Proof. intros H. simpl. rewrite H. apply orb_true_r. Qed.

Lemma includes_append (p n s : string) : includes n (p +:+ n +:+ s) = true.
Proof.
  induction p as [|c p IH].
  - exact (includes_prefix n s).
  - rewrite append_cons. by apply includes_cons.
Qed.

Lemma append_empty (n : string) : n +:+ EmptyString = n.
Proof.
  induction n as [|c n IH]; [done|]. by rewrite append_cons, IH.
Qed.

Lemma includes_suffix (p n : string) : includes n (p +:+ n) = true.
Proof.
  pose proof (includes_append p n EmptyString) as H.
  by rewrite append_empty in H.
Qed.

(** The sample lower-casing is idempotent, as the lower-casing of a
    platform is. *)
Section SampleLowerCase.

Import Samples.

Lemma lower_char_idempotent (c : ascii) : lower_char (lower_char c) = lower_char c.
Proof. destruct c as [[] [] [] [] [] [] [] []]; reflexivity. Qed.


Lemma lower_char_high (c x : ascii) :
  x = ascii_of_nat 226 ∨ x = ascii_of_nat 132 ∨ x = ascii_of_nat 170 →
  Ascii.eqb (lower_char c) x = Ascii.eqb c x.
Proof.
  intros [-> | [-> | ->]]; destruct c as [[] [] [] [] [] [] [] []]; reflexivity.
Qed.

Lemma lowerCase_plain (c : ascii) (r : string) :
  (∀ d e t, r = String d (String e t) → isKelvin c d e = false) →
  lowerCase (String c r) = String (lower_char c) (lowerCase r).
Proof.
  intros H. destruct r as [|d [|e t]]; try reflexivity.
  simpl. by rewrite (H d e t eq_refl).
Qed.

Lemma lowerCase_first (r : string) (d : ascii) (t : string) :
  lowerCase r = String d t →
  d = ascii_of_nat 132 ∨ d = ascii_of_nat 170 →
  ∃ r', r = String d r' ∧ t = lowerCase r'.
Proof.
  intros Hr Hd. destruct r as [|c r]; [done|].
  assert (Hplain : lowerCase (String c r) = String (lower_char c) (lowerCase r)
                   ∨ ∃ t', lowerCase (String c r) = String "k" t').
  { destruct r as [|d' [|e' t']]; simpl; auto.
    destruct (isKelvin c d' e'); eauto. }
  destruct Hplain as [Hplain|[t' Hk]].
  - rewrite Hplain in Hr. injection Hr as Hc <-.
    exists r. split; [|done]. f_equal.
    pose proof (lower_char_high c d) as Heq. rewrite Hc, Ascii.eqb_refl in Heq.
    specialize (Heq ltac:(tauto)).
    symmetry in Heq. by apply Ascii.eqb_eq in Heq.
  - rewrite Hk in Hr. injection Hr as <- _. by destruct Hd.
Qed.

Lemma lowerCase_idempotent_upto (n : nat) :
  ∀ s, String.length s <= n → lowerCase (lowerCase s) = lowerCase s.
Proof.
  induction n as [|n IH]; intros s Hlen.
  - destruct s; [done|simpl in Hlen; lia].
  - destruct s as [|c r]; [done|].
    assert (Hcases :
      (∃ t, r = String (ascii_of_nat 132) (String (ascii_of_nat 170) t)
            ∧ c = ascii_of_nat 226)
      ∨ (∀ d e t, r = String d (String e t) → isKelvin c d e = false)).
    { destruct r as [|d [|e t]]; try (right; intros; discriminate).
      destruct (isKelvin c d e) eqn:Hk.
      - left. unfold isKelvin in Hk.
        apply andb_true_iff in Hk as [Hk He]. apply andb_true_iff in Hk as [Hc Hd].
        apply Ascii.eqb_eq in Hc, Hd, He. subst. eauto.
      - right. intros d' e' t' [= <- <- <-]. done. }
    destruct Hcases as [(t & -> & ->)|Hplain].
    + change (lowerCase (String (ascii_of_nat 226)
                (String (ascii_of_nat 132) (String (ascii_of_nat 170) t))))
        with (String "k" (lowerCase t)).
      rewrite lowerCase_plain by (intros; reflexivity).
      rewrite IH; [done|]. simpl in Hlen. lia.
    + rewrite (lowerCase_plain c r Hplain).
      rewrite lowerCase_plain.
      * rewrite lower_char_idempotent, IH; [done|]. simpl in Hlen. lia.
      * intros d e t Hr. destruct (isKelvin (lower_char c) d e) eqn:Hk; [|done].
        unfold isKelvin in Hk.
        apply andb_true_iff in Hk as [Hk He]. apply andb_true_iff in Hk as [Hc Hd].
        rewrite lower_char_high in Hc by auto.
        apply Ascii.eqb_eq in Hd, He. subst d e.
        destruct (lowerCase_first r _ _ Hr (or_introl eq_refl)) as (r1 & -> & Ht).
        symmetry in Ht.
        destruct (lowerCase_first r1 _ _ Ht (or_intror eq_refl)) as (r2 & -> & _).
        rewrite <- (Hplain _ _ _ eq_refl). unfold isKelvin.
        by rewrite Hc, !Ascii.eqb_refl.
Qed.

Lemma lowerCase_idempotent (s : string) : lowerCase (lowerCase s) = lowerCase s.
Proof. by apply (lowerCase_idempotent_upto (String.length s)). Qed.

End SampleLowerCase.

(** ** The analysis client *)

Section ApiProperties.

Import Api.

Context {number : Type}.

Variable now : string.
Variable backend : string → RequestInit → Completion (Response number).
Variable response : Response number.

(** The exchange this section is about: the backend answers the POST with
    [response]. *)
Hypothesis backend_answers : ∀ url init, backend url init = Normal response.

Lemma ok_iff_2xx (r : Response number) :
  ok r = false ↔ status r < 200 ∨ 299 < status r.
Proof.
  unfold ok. rewrite andb_false_iff, !Nat.leb_gt. lia.
Qed.

Lemma analyzeImage_after_fetch (imageData : string) (log : list Effect) :
  ok response = true →
  analyzeImage now backend imageData log =
  (match body_json response with
   | Normal data =>
       if api_success data
       then Normal (mkAnalysisResult (api_success data) (api_label data)
                      (api_confidence data) (api_timestamp data)
                      (api_image_info data) None)
       else Abrupt (new_Error (or_else (api_message data) "Analysis failed"))
   | Abrupt e => Abrupt e
   | Pending => Pending
   end,
   log ++ [Fetch (API_BASE_URL +:+ "/analyze")
             (mkRequestInit "POST" [("Content-Type", "application/json")]
                [("image", imageData); ("timestamp", now)]);
           ReadBody]).
Proof.
  intros Hok. unfold analyzeImage, bind, fetch, json.
  rewrite backend_answers, Hok. simpl.
  rewrite <- app_assoc. simpl.
  destruct (body_json response) as [data|e|]; try done.
  by destruct (api_success data).
Qed.

Lemma verifyMedia_after_fetch (mediaData mimeType : string) (log : list Effect) :
  ok response = true →
  verifyMedia now backend mediaData mimeType log =
  (match body_json response with
   | Normal data =>
       if api_success data
       then Normal (mkAnalysisResult (api_success data) (api_label data)
                      (api_confidence data) (api_timestamp data)
                      None (api_media_info data))
       else Abrupt (new_Error (or_else (api_message data) "Verification failed"))
   | Abrupt e => Abrupt e
   | Pending => Pending
   end,
   log ++ [Fetch (API_BASE_URL +:+ "/verify-media")
             (mkRequestInit "POST" [("Content-Type", "application/json")]
                [("media", mediaData); ("type", mimeType); ("timestamp", now)]);
           ReadBody]).
Proof.
  intros Hok. unfold verifyMedia, bind, fetch, json.
  rewrite backend_answers, Hok. simpl.
  rewrite <- app_assoc. simpl.
  destruct (body_json response) as [data|e|]; try done.
  by destruct (api_success data).
Qed.

(** C1.  When the body the backend sends back, read after the status
    check has passed, says [success: true], both [analyzeImage] and
    [verifyMedia] return normally, and the result carries the label, the
    confidence and the timestamp of that body. *)
Theorem success_response_is_returned
    (data : ApiResponse number) (imageData mediaData mimeType : string)
    (log : list Effect) :
  ok response = true →
  body_json response = Normal data →
  api_success data = true →
  (∃ r, fst (analyzeImage now backend imageData log) = Normal r
        ∧ label r = api_label data
        ∧ confidence r = api_confidence data
        ∧ timestamp r = api_timestamp data)
  ∧ (∃ r, fst (verifyMedia now backend mediaData mimeType log) = Normal r
          ∧ label r = api_label data
          ∧ confidence r = api_confidence data
          ∧ timestamp r = api_timestamp data).
Proof.
  intros Hok Hbody Hsuccess.
  rewrite analyzeImage_after_fetch, verifyMedia_after_fetch by done.
  rewrite Hbody, Hsuccess. simpl.
  split; eexists; repeat split; reflexivity.
Qed.

(** C2, as the code has it.  When the body says [success: false], both
    calls throw and return nothing.  The error carries the [message] of the
    body when there is one and it is not the empty string, and the default
    of the call (['Analysis failed'], ['Verification failed']) when the
    message is absent or empty. *)
Theorem failure_response_is_thrown
    (data : ApiResponse number) (imageData mediaData mimeType : string)
    (log : list Effect) :
  ok response = true →
  body_json response = Normal data →
  api_success data = false →
  (∀ m, api_message data = Some m → m ≠ EmptyString →
        fst (analyzeImage now backend imageData log) = Abrupt (new_Error m)
        ∧ fst (verifyMedia now backend mediaData mimeType log) = Abrupt (new_Error m))
  ∧ (api_message data = None ∨ api_message data = Some EmptyString →
     fst (analyzeImage now backend imageData log)
       = Abrupt (new_Error "Analysis failed")
     ∧ fst (verifyMedia now backend mediaData mimeType log)
         = Abrupt (new_Error "Verification failed")).
Proof.
  intros Hok Hbody Hsuccess.
  rewrite analyzeImage_after_fetch, verifyMedia_after_fetch by done.
  rewrite Hbody, Hsuccess. simpl.
  split.
  - intros m -> Hm. simpl. destruct m; [done|]. simpl. done.
  - intros [-> | ->]; done.
Qed.

(** C3.  When the status of the response is outside 200..299, both calls
    throw [Backend error: <status>]: the message contains the decimal
    status code, and the only effect of the call is the [fetch], the body
    is never read. *)
Theorem bad_status_is_thrown
    (imageData mediaData mimeType : string) (log : list Effect) :
  status response < 200 ∨ 299 < status response →
  let message := "Backend error: " +:+ string_of_nat (status response) in
  includes (string_of_nat (status response)) message = true
  ∧ (∃ init, analyzeImage now backend imageData log
             = (Abrupt (new_Error message), log ++ [Fetch (API_BASE_URL +:+ "/analyze") init]))
  ∧ (∃ init, verifyMedia now backend mediaData mimeType log
             = (Abrupt (new_Error message), log ++ [Fetch (API_BASE_URL +:+ "/verify-media") init])).
Proof.
  intros Hstatus message. apply ok_iff_2xx in Hstatus.
  split; [apply includes_suffix|].
  unfold analyzeImage, verifyMedia, bind, fetch.
  rewrite !backend_answers, Hstatus. simpl.
  split; eexists; reflexivity.
Qed.

End ApiProperties.

(** The example of the specification: the backend answers
    [{success: true, label: "Fake", confidence: 87, timestamp: "T"}]. *)
Lemma success_response_example :
  ∃ r, fst (Api.analyzeImage "2024-05-01T10:00:00.000Z"
              (Samples.answering (Api.mkResponse 200 (Normal Samples.fakeResponse)))
              "data:image/jpeg;base64,AAAA" [])
       = Normal r
       ∧ label r = "Fake" ∧ confidence r = 87 ∧ timestamp r = "T".
Proof.
  refine (proj1 (success_response_is_returned "2024-05-01T10:00:00.000Z"
                   (Samples.answering (Api.mkResponse 200 (Normal Samples.fakeResponse)))
                   (Api.mkResponse 200 (Normal Samples.fakeResponse))
                   _ Samples.fakeResponse
                   "data:image/jpeg;base64,AAAA" "data:video/mp4;base64,AAAA" "video/mp4" []
                   _ _ _)); reflexivity.
Defined.

(** The example of the specification: [{success: false, message: "bad
    image"}] is thrown as ["bad image"]. *)
Lemma failure_response_example :
  fst (Api.analyzeImage "2024-05-01T10:00:00.000Z"
         (Samples.answering (Api.mkResponse 200 (Normal Samples.badImageResponse)))
         "data:image/jpeg;base64,AAAA" [])
  = Abrupt (new_Error "bad image").
Proof.
  refine (proj1 (proj1 (failure_response_is_thrown "2024-05-01T10:00:00.000Z"
                   (Samples.answering (Api.mkResponse 200 (Normal Samples.badImageResponse)))
                   (Api.mkResponse 200 (Normal Samples.badImageResponse))
                   _ Samples.badImageResponse
                   "data:image/jpeg;base64,AAAA" "data:video/mp4;base64,AAAA" "video/mp4" []
                   _ _ _) "bad image" _ _)); done.
Defined.

(** A message that is present but empty is not what the error carries: the
    call throws its default instead. *)
Lemma empty_message_is_replaced :
  Api.body_json (Api.mkResponse 200 (Normal Samples.emptyMessageResponse))
    = Normal Samples.emptyMessageResponse
  ∧ api_success Samples.emptyMessageResponse = false
  ∧ api_message Samples.emptyMessageResponse = Some EmptyString
  ∧ fst (Api.analyzeImage "2024-05-01T10:00:00.000Z"
           (Samples.answering (Api.mkResponse 200 (Normal Samples.emptyMessageResponse)))
           "data:image/jpeg;base64,AAAA" [])
    = Abrupt (new_Error "Analysis failed")
  ∧ fst (Api.analyzeImage "2024-05-01T10:00:00.000Z"
           (Samples.answering (Api.mkResponse 200 (Normal Samples.emptyMessageResponse)))
           "data:image/jpeg;base64,AAAA" [])
    ≠ Abrupt (new_Error EmptyString).
Proof. repeat split; try reflexivity. discriminate. Qed.

(** The example of the specification: status 500. *)
Lemma bad_status_example :
  ∃ init,
    Api.analyzeImage "2024-05-01T10:00:00.000Z"
      (Samples.answering Samples.serverError) "data:image/jpeg;base64,AAAA" []
    = (Abrupt (new_Error "Backend error: 500"),
       [Api.Fetch "http://localhost:5000/analyze" init]).
Proof.
  refine (proj1 (proj2 (bad_status_is_thrown "2024-05-01T10:00:00.000Z"
                   (Samples.answering Samples.serverError) Samples.serverError
                   _ "data:image/jpeg;base64,AAAA" "data:video/mp4;base64,AAAA"
                   "video/mp4" [] _))).
  - reflexivity.
  - right. simpl. lia.
Defined.

(** ** The result card *)

Section CardProperties.

Import ResultCard.

(** The lower-casing of the platform, whatever it is. *)
Variable toLowerCase : string → string.

Context {number : Type}.
Variable toString : number → string.

(** The display and the colour of the bar are functions of the lower-cased
    label alone. *)
Lemma getResultDisplay_lower (a b : string) :
  toLowerCase a = toLowerCase b →
  getResultDisplay toLowerCase a = getResultDisplay toLowerCase b.
Proof. unfold getResultDisplay. by intros ->. Qed.

Lemma barColor_lower (a b : string) :
  toLowerCase a = toLowerCase b → barColor toLowerCase a = barColor toLowerCase b.
Proof. unfold barColor. by intros ->. Qed.

(** C4.  Two labels that differ only in letter casing, that is, two labels
    that the lower-casing of the platform sends to the same string, get the
    same display (icon, text and the three colour classes) and the same bar
    colour, and results that differ in nothing but such labels get the same
    card.  And, the lower-casing of a lower-cased string being that string
    again, lower-casing a label changes neither its display nor its bar
    colour. *)
Theorem display_ignores_case (a b : string) :
  toLowerCase a = toLowerCase b →
  getResultDisplay toLowerCase a = getResultDisplay toLowerCase b
  ∧ barColor toLowerCase a = barColor toLowerCase b
  ∧ (∀ ok confidence timestamp image media,
       ResultCard toLowerCase toString
         (mkAnalysisResult ok a confidence timestamp image media)
       = ResultCard toLowerCase toString
           (mkAnalysisResult ok b confidence timestamp image media))
  ∧ ((∀ s, toLowerCase (toLowerCase s) = toLowerCase s) →
     getResultDisplay toLowerCase (toLowerCase a) = getResultDisplay toLowerCase a
     ∧ barColor toLowerCase (toLowerCase a) = barColor toLowerCase a).
Proof.
  intros H.
  split; [by apply getResultDisplay_lower|].
  split; [by apply barColor_lower|].
  split.
  - intros ok confidence timestamp image media.
    unfold ResultCard, progressBar. simpl.
    by rewrite (getResultDisplay_lower a b H), (barColor_lower a b H).
  - intros Hidem. split.
    + apply getResultDisplay_lower, Hidem.
    + apply barColor_lower, Hidem.
Qed.

(** C10.  A label that, lower-cased by the platform, is none of [real],
    [fake] and [suspicious] is rendered with the fallback treatment: the
    question-mark icon, the text [Unknown] and the gray classes.  The card
    still shows the confidence, and the bar is as wide as the confidence,
    in percent. *)
Theorem unknown_label_falls_back (result : AnalysisResult number) :
  toLowerCase (label result) ≠ "real" →
  toLowerCase (label result) ≠ "fake" →
  toLowerCase (label result) ≠ "suspicious" →
  getResultDisplay toLowerCase (label result)
    = mkDisplay "❓" "Unknown" "text-gray-400" "bg-gray-900/20" "border-gray-500/30"
  ∧ ∃ bar info,
      bar = Element "div"
              (mkProps "h-2 rounded-full transition-all duration-500 bg-yellow-500"
                       [("width", toString (confidence result) +:+ "%")] None false)
              []
      ∧ ResultCard toLowerCase toString result
        = el "div" "fade-in-up border rounded-lg p-4 bg-gray-900/20 border-gray-500/30"
            [el "div" "text-center"
                ([el "div" "text-2xl mb-2" [Text "❓"];
                  el "h3" "text-lg font-semibold mb-1 text-gray-400" [Text "Unknown"];
                  el "div" "text-sm text-gray-400"
                     [Text "Confidence: "; Text (toString (confidence result)); Text "%"];
                  el "div" "mt-3 bg-gray-700 rounded-full h-2" [bar]]
                 ++ info)].
Proof.
  intros Hreal Hfake Hsusp.
  apply String.eqb_neq in Hreal, Hfake, Hsusp.
  assert (Hd : getResultDisplay toLowerCase (label result)
               = mkDisplay "❓" "Unknown" "text-gray-400" "bg-gray-900/20"
                           "border-gray-500/30").
  { unfold getResultDisplay. by rewrite Hreal, Hfake, Hsusp. }
  split; [exact Hd|].
  eexists _, _. split; [reflexivity|].
  unfold ResultCard, progressBar, barColor.
  rewrite Hd, Hreal, Hfake. reflexivity.
Qed.

End CardProperties.

(** The spellings the specification names, on the sample platform. *)
Lemma display_ignores_case_example :
  ResultCard.getResultDisplay Samples.lowerCase "REAL"
    = ResultCard.getResultDisplay Samples.lowerCase "Real"
  ∧ ResultCard.barColor Samples.lowerCase "REAL"
    = ResultCard.barColor Samples.lowerCase "Real"
  ∧ ResultCard.getResultDisplay Samples.lowerCase (Samples.lowerCase "REAL")
    = ResultCard.getResultDisplay Samples.lowerCase "REAL"
  ∧ ResultCard.barColor Samples.lowerCase (Samples.lowerCase "REAL")
    = ResultCard.barColor Samples.lowerCase "REAL".
Proof.
  destruct (display_ignores_case Samples.lowerCase string_of_nat "REAL" "Real" eq_refl)
    as (Hdisplay & Hbar & _ & Hlower).
  destruct (Hlower lowerCase_idempotent) as [Hdisplay' Hbar'].
  exact (conj Hdisplay (conj Hbar (conj Hdisplay' Hbar'))).
Defined.

Example real_spellings :
  ResultCard.getResultDisplay Samples.lowerCase "REAL"
    = ResultCard.getResultDisplay Samples.lowerCase "real"
  ∧ ResultCard.getResultDisplay Samples.lowerCase "Real"
    = ResultCard.getResultDisplay Samples.lowerCase "real"
  ∧ ResultCard.text (ResultCard.getResultDisplay Samples.lowerCase "real") = "Real".
Proof. repeat split. Qed.

(** A label spelt with the Kelvin sign in place of the [K]: the platform
    lower-cases the sign to [k], so the label is [fake] to the card. *)
Example kelvin_sign_spelling :
  Samples.kelvinLabel ≠ "FAKE"
  ∧ Samples.lowerCase Samples.kelvinLabel = "fake"
  ∧ ResultCard.text (ResultCard.getResultDisplay Samples.lowerCase Samples.kelvinLabel)
    = "Fake"
  ∧ ResultCard.barColor Samples.lowerCase Samples.kelvinLabel = "bg-red-500".
Proof. repeat split. discriminate. Qed.

(** A label the card does not know, with confidence 42. *)
Lemma unknown_label_example :
  ResultCard.getResultDisplay Samples.lowerCase "Deepfake"
    = ResultCard.mkDisplay "❓" "Unknown" "text-gray-400" "bg-gray-900/20"
                           "border-gray-500/30"
  ∧ ∃ bar info,
      bar = Element "div"
              (mkProps "h-2 rounded-full transition-all duration-500 bg-yellow-500"
                       [("width", "42%")] None false)
              []
      ∧ ResultCard.ResultCard Samples.lowerCase string_of_nat
          (mkAnalysisResult true "Deepfake" 42 "T" None None)
        = el "div" "fade-in-up border rounded-lg p-4 bg-gray-900/20 border-gray-500/30"
            [el "div" "text-center"
                ([el "div" "text-2xl mb-2" [Text "❓"];
                  el "h3" "text-lg font-semibold mb-1 text-gray-400" [Text "Unknown"];
                  el "div" "text-sm text-gray-400"
                     [Text "Confidence: "; Text "42"; Text "%"];
                  el "div" "mt-3 bg-gray-700 rounded-full h-2" [bar]]
                 ++ info)].
Proof.
  apply (unknown_label_falls_back Samples.lowerCase string_of_nat
           (mkAnalysisResult true "Deepfake" 42 "T" None None));
    intros H; vm_compute in H; discriminate.
Defined.

(** ** The webcam controller *)

Section WebcamProperties.

Import Webcam.

(** *** Stopping the camera *)

Lemma stopped_tracks_are_ended (stream : MediaStream) :
  ∀ (store : gmap nat ReadyState) (track : nat),
    track ∈ stream ∨ store !! track = Some ended →
    foldl stop store stream !! track = Some ended.
Proof.
  induction stream as [|t stream IH]; intros store track H; simpl.
  - destruct H as [H|H]; [by apply elem_of_nil in H|done].
  - apply IH. destruct H as [H|H].
    + apply elem_of_cons in H as [->|H]; [right|by left].
      unfold stop. apply lookup_insert_eq.
    + right. unfold stop. destruct (decide (t = track)) as [->|Hne].
      * apply lookup_insert_eq.
      * by rewrite lookup_insert_ne.
Qed.

Lemma stopCamera_state (s : State) :
  stopCamera s =
  (Normal tt,
   mkState false None (isRequestingCamera s) unknown None
     (match videoRef s with Some _ => Some (mkVideo None) | None => None end)
     (match streamRef s with
      | Some stream => foldl stop (trackStore s) (getTracks stream)
      | None => trackStore s
      end)
     "Camera stopped" (createdTabs s)).
Proof.
  destruct s as [a e r p [stream|] [v|] store m tabs]; reflexivity.
Qed.

(** C5.  [stopCamera] is idempotent and never throws.  With no stream
    held it stops no track and leaves the track store as it is.  From any
    state it stops every track of the stream it holds, forgets the stream,
    detaches it from the video, clears the camera error, puts the
    permission state back to [unknown], leaves the camera inactive and
    reports [Camera stopped]; a second call in a row leaves the state
    unchanged. *)
Theorem stopCamera_resets_and_is_idempotent (s : State) :
  let s' := snd (stopCamera s) in
  fst (stopCamera s) = Normal tt
  ∧ (∀ stream track, streamRef s = Some stream → track ∈ getTracks stream →
       trackStore s' !! track = Some ended)
  ∧ (streamRef s = None → trackStore s' = trackStore s)
  ∧ streamRef s' = None
  ∧ (∀ v, videoRef s' = Some v → srcObject v = None)
  ∧ isCameraActive s' = false
  ∧ cameraError s' = None
  ∧ permissionStatus s' = unknown
  ∧ status s' = "Camera stopped"
  ∧ stopCamera s' = (Normal tt, s').
Proof.
  intros s'. subst s'. rewrite stopCamera_state. simpl.
  repeat split; try done.
  - intros stream track -> Hin. apply stopped_tracks_are_ended. by left.
  - by intros ->.
  - intros v. destruct (videoRef s); intros [= <-]; done.
  - rewrite stopCamera_state. simpl. by destruct (videoRef s).
Qed.

(** *** Waiting for the metadata *)

Lemma runQueue_listening (q : list (N * Task)) :
  runQueue q listening = (λ x, (fst x, outcome (snd x))) <$> head q.
Proof. destruct q as [|[t [[]|]] q]; reflexivity. Qed.

Lemma enqueue_head_earlier (x h : N * Task) (q : list (N * Task)) :
  head q = Some h →
  ∃ h', head (enqueue x q) = Some h' ∧ (fst h' ≤ fst h)%N.
Proof.
  destruct q as [|y q]; intros [= <-]. simpl.
  destruct (N.ltb_spec (fst x) (fst y)); eexists; (split; [reflexivity|lia]).
Qed.

Lemma enqueue_head_kept (x h : N * Task) (q : list (N * Task)) :
  head q = Some h → (fst h < fst x)%N → head (enqueue x q) = Some h.
Proof.
  destruct q as [|y q]; intros [= <-] Hlt. simpl.
  destruct (N.ltb_spec (fst x) (fst y)); [lia|done].
Qed.

Lemma taskQueue_head_earlier (events : list (N * VideoEvent)) :
  ∀ (q : list (N * Task)) (h : N * Task),
    head q = Some h →
    ∃ h', head (foldl (λ q e, enqueue (fst e, Dispatch (snd e)) q) q events) = Some h'
          ∧ (fst h' ≤ fst h)%N.
Proof.
  induction events as [|e events IH]; intros q h Hq; simpl.
  - exists h. split; [done|lia].
  - destruct (enqueue_head_earlier (fst e, Dispatch (snd e)) h q Hq) as (h1 & H1 & Hle1).
    destruct (IH _ _ H1) as (h2 & H2 & Hle2).
    exists h2. split; [done|lia].
Qed.

Lemma taskQueue_head_kept (events : list (N * VideoEvent)) :
  ∀ (q : list (N * Task)) (h : N * Task),
    head q = Some h →
    (∀ e, e ∈ events → (fst h < fst e)%N) →
    head (foldl (λ q e, enqueue (fst e, Dispatch (snd e)) q) q events) = Some h.
Proof.
  induction events as [|e events IH]; intros q h Hq Hlate; simpl; [done|].
  apply IH.
  - apply enqueue_head_kept; [done|]. simpl. apply Hlate, elem_of_cons. by left.
  - intros e' He'. apply Hlate, elem_of_cons. by right.
Qed.

(** C6.  Whatever the video fires and whenever, the wait for the metadata
    is settled, and no later than 10000 ms after the listeners were
    attached; [startCamera] is never left suspended in it.  When no event
    of the video comes within these 10000 ms, the wait is settled at
    10000 ms by the timer, rejected with [Video loading timeout], which
    the handler of [startCamera] shows under that name. *)
Theorem metadata_wait_is_bounded (env : Env) (s : State) :
  fst (awaitMetadata env s) ≠ Pending
  ∧ ∃ t c,
      metadataWait (videoEvents env) = Some (t, c)
      ∧ c ≠ Pending
      ∧ (t ≤ 10000)%N
      ∧ ((∀ e, e ∈ videoEvents env → (10000 < fst e)%N) →
         t = 10000%N
         ∧ c = Abrupt (new_Error "Video loading timeout")
         ∧ errorMessage (classify (new_Error "Video loading timeout"))
           = "Video loading timeout"
         ∧ (videoRef s ≠ None →
            fst (awaitMetadata env s) = Abrupt (new_Error "Video loading timeout"))).
Proof.
  destruct (taskQueue_head_earlier (videoEvents env) [(TIMEOUT, TimerExpired)]
              (TIMEOUT, TimerExpired) eq_refl) as (h & Hhead & Hle).
  assert (Hwait : metadataWait (videoEvents env) = Some (fst h, outcome (snd h))).
  { unfold metadataWait, taskQueue. by rewrite runQueue_listening, Hhead. }
  assert (Hsettled : outcome (snd h) ≠ Pending).
  { by destruct (snd h) as [[]|]. }
  split.
  - unfold awaitMetadata, bind, get, await, throw. simpl.
    destruct (videoRef s); [|done]. by rewrite Hwait.
  - exists (fst h), (outcome (snd h)).
    split; [exact Hwait|]. split; [exact Hsettled|]. split; [exact Hle|].
    intros Hlate.
    pose proof (taskQueue_head_kept (videoEvents env) [(TIMEOUT, TimerExpired)]
                  (TIMEOUT, TimerExpired) eq_refl Hlate) as Hkept.
    rewrite Hkept in Hhead. injection Hhead as <-.
    split; [done|]. split; [done|]. split; [done|].
    intros Hvideo. unfold awaitMetadata, bind, get, await, throw. simpl.
    destruct (videoRef s); [|done]. by rewrite Hwait.
Qed.

(** *** Classifying what acquisition throws *)

(** The messages of the six named classes and the fallback are pairwise
    different. *)
Lemma classified_messages_differ :
  NoDup (errorMessage ∘ classify <$>
           [ThrownObject (Some "NotAllowedError") None;
            ThrownObject (Some "NotFoundError") None;
            ThrownObject (Some "NotReadableError") None;
            ThrownObject (Some "OverconstrainedError") None;
            ThrownObject (Some "SecurityError") None;
            ThrownObject (Some "AbortError") None;
            ThrownObject (Some "TypeError") None]).
Proof.
  apply (bool_decide_unpack _). by vm_compute.
Qed.

(** A refused permission leaves the state [denied], and in an extension the
    button that opens the permission page is rendered. *)
Lemma permission_denied_offers_the_page :
  let env := Samples.rejecting "NotAllowedError" in
  let s := snd (startCamera env Samples.popup) in
  isExtension env = true
  ∧ permissionStatus s = denied
  ∧ offersPermissionPage env s false = true.
Proof. repeat split. Qed.

(** Whatever the state [startCamera] finds, a [SecurityError] leaves the
    permission state at [requesting]: the handler asks for the button and
    announces it in the error text, and the render, which shows the button
    only when the state is [denied], leaves it out. *)
Lemma security_error_leaves_requesting
    (env : Env) (s : State) (m : option string) (isAnalyzing : bool) :
  isExtension env = true →
  permissionStatus s = requesting →
  let s' := snd (recover env (ThrownObject (Some "SecurityError") m) s) in
  showPermissionButton (classify (ThrownObject (Some "SecurityError") m)) = true
  ∧ permissionStatus s' = requesting
  ∧ cameraError s'
    = Some ("Camera access blocked due to security restrictions Click " +:+ quot
            +:+ "Open Permission Page" +:+ quot +:+ " below to grant access.")
  ∧ offersPermissionPage env s' isAnalyzing = false.
Proof.
  intros Hext Hreq s'. subst s'.
  unfold recover, offersPermissionPage, render, errorAlert. simpl.
  rewrite Hext. simpl. rewrite Hreq. simpl.
  repeat split.
Qed.

(** C7, at the input where the code departs from it.  The popup runs as an
    extension, the host page has the permission, and [getUserMedia] rejects
    with a [SecurityError].  [startCamera] ends with the error text that
    tells the user to click [Open Permission Page] below, the permission
    state still [requesting], and no such button in what is rendered. *)
Theorem security_error_hides_the_permission_page :
  let env := Samples.rejecting "SecurityError" in
  let s := snd (startCamera env Samples.popup) in
  isExtension env = true
  ∧ fst (startCamera env Samples.popup) = Normal tt
  ∧ cameraError s
    = Some ("Camera access blocked due to security restrictions Click " +:+ quot
            +:+ "Open Permission Page" +:+ quot +:+ " below to grant access.")
  ∧ status s = "Camera access blocked due to security restrictions"
  ∧ permissionStatus s = requesting
  ∧ offersPermissionPage env s false = false.
Proof. repeat split. Qed.

(** *** Permission updates pushed by the host page *)

(** In an extension, a [cameraPermissionUpdate] message sets the
    permission state to [granted] when its flag is true and to [denied]
    otherwise, whichever listener is in place; when the listener in place
    is the one of a render that showed [denied] and the flag is true, the
    camera error is cleared and the status asks the user to start the
    camera again. *)
Lemma permission_update_is_applied (env : Env) (rendered s : State) (m : Message) :
  isExtension env = true →
  action m = "cameraPermissionUpdate" →
  let r := receive env rendered m s in
  fst r = Normal tt
  ∧ permissionStatus (snd r) = (if msg_granted m then granted else denied)
  ∧ (permissionStatus rendered = denied → msg_granted m = true →
     cameraError (snd r) = None
     ∧ status (snd r) = "Camera permission granted! Click " +:+ quot
                        +:+ "Start Camera" +:+ quot +:+ " to continue.").
Proof.
  intros Hext Haction r. subst r.
  unfold receive, listener, handleMessage. rewrite Hext, Haction. simpl.
  destruct (msg_granted m) eqn:Hgranted; simpl.
  - destruct (permissionStatus rendered) eqn:Hp; simpl; repeat split; try done.
  - repeat split; done.
Qed.

(** C8, at the input where the code departs from it.  The popup runs as an
    extension and has rendered its initial state, so the listener in place
    has captured [unknown].  The host page reports a refusal and then, before
    the popup has rendered again and replaced the listener, a grant.  The
    refusal moves the state to [denied] and puts the error on display; the
    grant moves the state from [denied] to [granted], but the listener tests
    the [unknown] it has captured: the error stays on display and no status
    asks the user to start the camera again. *)
Theorem stale_listener_misses_the_grant :
  let env := Samples.rejecting "NotAllowedError" in
  let rendered := Samples.popup in
  let refused :=
    snd (receive env rendered (mkMessage "cameraPermissionUpdate" false None)
           Samples.popup) in
  let allowed :=
    snd (receive env rendered (mkMessage "cameraPermissionUpdate" true None)
           refused) in
  isExtension env = true
  ∧ permissionStatus rendered = unknown
  ∧ permissionStatus refused = denied
  ∧ cameraError refused = Some "Camera permission denied"
  ∧ permissionStatus allowed = granted
  ∧ cameraError allowed = Some "Camera permission denied"
  ∧ status allowed = "Ready to start camera".
Proof. repeat split. Qed.

(** *** Talking to the host page *)

(** C9.  Neither [checkPermissionStatus] nor
    [requestPermissionViaContentScript] ever throws; and whenever the
    exchange with the host page fails (no extension or tabs API, the query
    rejected, no active tab, the message rejected) each of them returns
    [false] and leaves the state alone. *)
Theorem relay_failures_are_absorbed (env : Env) (s : State) :
  (∀ e, fst (checkPermissionStatus env s) ≠ Abrupt e)
  ∧ (∀ e, fst (requestPermissionViaContentScript env s) ≠ Abrupt e)
  ∧ (RelayFailure env (mkRelayRequest "checkCameraPermission") →
     checkPermissionStatus env s = (Normal false, s))
  ∧ (RelayFailure env (mkRelayRequest "requestCameraPermission") →
     requestPermissionViaContentScript env s = (Normal false, s)).
Proof.
  unfold checkPermissionStatus, requestPermissionViaContentScript.
  repeat split.
  - intros e. destruct (isExtension env); [|done].
    destruct (chromeTabs env) as [api|]; [|done].
    unfold try_catch, bind, await, ret, throw.
    destruct (query api _) as [tabList| |]; try done.
    destruct (truthyId (head tabList)) as [id|]; try done.
    by destruct (sendMessage api id _).
  - intros e. destruct (isExtension env); [|done].
    destruct (chromeTabs env) as [api|]; [|done].
    unfold try_catch, bind, await, ret, throw.
    destruct (query api _) as [tabList| |]; try done.
    destruct (truthyId (head tabList)) as [id|]; try done.
    by destruct (sendMessage api id _).
  - intros [[H|H] | api e Hapi Hq | api tabList Hapi Hq Hid
            | api tabList id e Hapi Hq Hid Hsend].
    + by rewrite H.
    + rewrite H. by destruct (isExtension env).
    + rewrite Hapi. destruct (isExtension env); [|done].
      unfold try_catch, bind, await, ret. by rewrite Hq.
    + rewrite Hapi. destruct (isExtension env); [|done].
      unfold try_catch, bind, await, ret. by rewrite Hq, Hid.
    + rewrite Hapi. destruct (isExtension env); [|done].
      unfold try_catch, bind, await, ret. by rewrite Hq, Hid, Hsend.
  - intros [[H|H] | api e Hapi Hq | api tabList Hapi Hq Hid
            | api tabList id e Hapi Hq Hid Hsend].
    + by rewrite H.
    + rewrite H. by destruct (isExtension env).
    + rewrite Hapi. destruct (isExtension env); [|done].
      unfold try_catch, bind, await, ret. by rewrite Hq.
    + rewrite Hapi. destruct (isExtension env); [|done].
      unfold try_catch, bind, await, ret, throw. by rewrite Hq, Hid.
    + rewrite Hapi. destruct (isExtension env); [|done].
      unfold try_catch, bind, await, ret. by rewrite Hq, Hid, Hsend.
Qed.

End WebcamProperties.

(** *** The properties on sample runs *)

(** A camera that was started and is stopped: both tracks of its stream
    end, and stopping again changes nothing. *)
Lemma stopCamera_example :
  let s := snd (Webcam.startCamera
                  (Samples.streaming [(120%N, Webcam.loadedmetadata)]) Samples.popup) in
  let s' := snd (Webcam.stopCamera s) in
  Webcam.streamRef s = Some [1; 2]
  ∧ Webcam.trackStore s !! 1 = Some Webcam.live
  ∧ Webcam.trackStore s' !! 1 = Some Webcam.ended
  ∧ Webcam.trackStore s' !! 2 = Some Webcam.ended
  ∧ Webcam.stopCamera s' = (Normal tt, s').
Proof.
  intros s s'.
  destruct (stopCamera_resets_and_is_idempotent s)
    as (_ & Hended & _ & _ & _ & _ & _ & _ & _ & Hagain).
  split; [reflexivity|]. split; [reflexivity|].
  split; [|split]; [| |exact Hagain].
  - apply (Hended [1; 2] 1 eq_refl). apply elem_of_cons. by left.
  - apply (Hended [1; 2] 2 eq_refl). apply elem_of_cons. right.
    apply elem_of_cons. by left.
Defined.

(** The video reports its metadata only after 12 seconds: the wait has
    been over since the 10th, with the timeout error. *)
Lemma metadata_wait_example :
  let env := Samples.streaming [(12000%N, Webcam.loadedmetadata)] in
  Webcam.metadataWait (Webcam.videoEvents env)
    = Some (10000%N, Abrupt (new_Error "Video loading timeout"))
  ∧ fst (Webcam.awaitMetadata env Samples.popup)
    = Abrupt (new_Error "Video loading timeout").
Proof.
  intros env.
  destruct (metadata_wait_is_bounded env Samples.popup)
    as (_ & t & c & Hwait & _ & _ & Hlate).
  destruct Hlate as (-> & -> & _ & Hawait).
  - intros e He. apply list_elem_of_singleton in He. subst e. simpl. lia.
  - split; [exact Hwait|]. apply Hawait. discriminate.
Defined.

(** The video never reports anything: [startCamera] comes back after the
    timeout, with the camera inactive and the timeout on display. *)
Example startCamera_times_out :
  let r := Webcam.startCamera (Samples.streaming []) Samples.popup in
  fst r = Normal tt
  ∧ Webcam.isCameraActive (snd r) = false
  ∧ Webcam.isRequestingCamera (snd r) = false
  ∧ Webcam.cameraError (snd r) = Some "Video loading timeout"
  ∧ Webcam.status (snd r) = "Video loading timeout".
Proof. repeat split. Qed.

(** The host page tells a popup that had been refused, and has rendered
    that, that the permission is now granted. *)
Example permission_update_example :
  let env := Samples.rejecting "NotAllowedError" in
  let s := snd (Webcam.startCamera env Samples.popup) in
  let r := Webcam.receive env s (Webcam.mkMessage "cameraPermissionUpdate" true None) s in
  Webcam.permissionStatus s = Webcam.denied
  ∧ Webcam.permissionStatus (snd r) = Webcam.granted
  ∧ Webcam.cameraError (snd r) = None
  ∧ Webcam.status (snd r) = "Camera permission granted! Click " +:+ quot
                            +:+ "Start Camera" +:+ quot +:+ " to continue.".
Proof.
  intros env s r.
  destruct (permission_update_is_applied env s s
              (Webcam.mkMessage "cameraPermissionUpdate" true None)
              eq_refl eq_refl) as (_ & Hstatus & Hcleared).
  split; [reflexivity|]. split; [exact Hstatus|].
  exact (Hcleared eq_refl eq_refl).
Qed.

(** An extension popup with no active tab: both exchanges give [false]. *)
Lemma relay_failure_example :
  Webcam.checkPermissionStatus Samples.noTab Samples.popup
    = (Normal false, Samples.popup)
  ∧ Webcam.requestPermissionViaContentScript Samples.noTab Samples.popup
    = (Normal false, Samples.popup).
Proof.
  destruct (relay_failures_are_absorbed Samples.noTab Samples.popup)
    as (_ & _ & Hcheck & Hrequest).
  split.
  - apply Hcheck.
    by apply (Webcam.NoActiveTab Samples.noTab _
                (Webcam.mkTabsApi (λ _, Normal []) (λ _ _, Normal None)) []).
  - apply Hrequest.
    by apply (Webcam.NoActiveTab Samples.noTab _
                (Webcam.mkTabsApi (λ _, Normal []) (λ _ _, Normal None)) []).
Defined.

(* ===================================================================== *)
(** * Part III. Further properties of the code                            *)
(* ===================================================================== *)

(** ** The analysis client, whatever the backend does *)

Section ClientProperties.

Import Api Wire.

Context {number : Type}.

Variable now : string.
Variable backend : string → RequestInit → Completion (Response number).

Lemma analyzeImage_cases (imageData : string) (log : list Effect) :
  analyzeImage now backend imageData log =
  match backend analyzeUrl (analyzeInit now imageData) with
  | Normal r =>
      if ok r then
        (match body_json r with
         | Normal data =>
             if api_success data
             then Normal (mkAnalysisResult (api_success data) (api_label data)
                            (api_confidence data) (api_timestamp data)
                            (api_image_info data) None)
             else Abrupt (new_Error (or_else (api_message data) "Analysis failed"))
         | Abrupt e => Abrupt e
         | Pending => Pending
         end,
         log ++ [Fetch analyzeUrl (analyzeInit now imageData); ReadBody])
      else
        (Abrupt (new_Error ("Backend error: " +:+ string_of_nat (status r))),
         log ++ [Fetch analyzeUrl (analyzeInit now imageData)])
  | Abrupt e => (Abrupt e, log ++ [Fetch analyzeUrl (analyzeInit now imageData)])
  | Pending => (Pending, log ++ [Fetch analyzeUrl (analyzeInit now imageData)])
  end.
Proof.
  unfold analyzeImage, bind, fetch, json.
  change (API_BASE_URL +:+ "/analyze") with analyzeUrl.
  change (mkRequestInit "POST" [("Content-Type", "application/json")]
            [("image", imageData); ("timestamp", now)])
    with (analyzeInit now imageData).
  destruct (backend analyzeUrl (analyzeInit now imageData)) as [r|e|]; try done.
  destruct (ok r); simpl; [|done].
  rewrite <- app_assoc. simpl.
  destruct (body_json r) as [data|e|]; try done.
  by destruct (api_success data).
Qed.

Lemma verifyMedia_cases (mediaData mimeType : string) (log : list Effect) :
  verifyMedia now backend mediaData mimeType log =
  match backend verifyUrl (verifyInit now mediaData mimeType) with
  | Normal r =>
      if ok r then
        (match body_json r with
         | Normal data =>
             if api_success data
             then Normal (mkAnalysisResult (api_success data) (api_label data)
                            (api_confidence data) (api_timestamp data)
                            None (api_media_info data))
             else Abrupt (new_Error (or_else (api_message data) "Verification failed"))
         | Abrupt e => Abrupt e
         | Pending => Pending
         end,
         log ++ [Fetch verifyUrl (verifyInit now mediaData mimeType); ReadBody])
      else
        (Abrupt (new_Error ("Backend error: " +:+ string_of_nat (status r))),
         log ++ [Fetch verifyUrl (verifyInit now mediaData mimeType)])
  | Abrupt e => (Abrupt e, log ++ [Fetch verifyUrl (verifyInit now mediaData mimeType)])
  | Pending => (Pending, log ++ [Fetch verifyUrl (verifyInit now mediaData mimeType)])
  end.
Proof.
  unfold verifyMedia, bind, fetch, json.
  change (API_BASE_URL +:+ "/verify-media") with verifyUrl.
  change (mkRequestInit "POST" [("Content-Type", "application/json")]
            [("media", mediaData); ("type", mimeType); ("timestamp", now)])
    with (verifyInit now mediaData mimeType).
  destruct (backend verifyUrl (verifyInit now mediaData mimeType)) as [r|e|]; try done.
  destruct (ok r); simpl; [|done].
  rewrite <- app_assoc. simpl.
  destruct (body_json r) as [data|e|]; try done.
  by destruct (api_success data).
Qed.

(** X1.  Whatever the backend does, a call makes exactly one request, a
    POST of JSON to its endpoint that carries the data and the time of the
    call, and reads the body at most once, namely when the answer came
    with a status in 200..299.  Nothing is sent twice. *)
Theorem client_sends_one_request
    (imageData mediaData mimeType : string) (log : list Effect) :
  snd (analyzeImage now backend imageData log)
  = log ++ Fetch "http://localhost:5000/analyze"
             (mkRequestInit "POST" [("Content-Type", "application/json")]
                [("image", imageData); ("timestamp", now)])
           :: (if bodyRead (backend analyzeUrl (analyzeInit now imageData))
               then [ReadBody] else [])
  ∧ snd (verifyMedia now backend mediaData mimeType log)
    = log ++ Fetch "http://localhost:5000/verify-media"
               (mkRequestInit "POST" [("Content-Type", "application/json")]
                  [("media", mediaData); ("type", mimeType); ("timestamp", now)])
             :: (if bodyRead (backend verifyUrl (verifyInit now mediaData mimeType))
                 then [ReadBody] else []).
Proof.
  rewrite analyzeImage_cases, verifyMedia_cases. unfold bodyRead.
  split.
  - destruct (backend analyzeUrl _) as [r|e|]; try done. by destruct (ok r).
  - destruct (backend verifyUrl _) as [r|e|]; try done. by destruct (ok r).
Qed.

(** X2.  The client handles no failure of the transport itself: what a
    rejected [fetch] or a body that cannot be read as JSON throws reaches
    the caller unchanged, and a request or a body that never arrives leaves
    the call pending for ever, as there is no timeout. *)
Theorem client_passes_failures_on
    (imageData mediaData mimeType : string) (log : list Effect) :
  let sent := backend analyzeUrl (analyzeInit now imageData) in
  let posted := backend verifyUrl (verifyInit now mediaData mimeType) in
  (∀ e, sent = Abrupt e →
        fst (analyzeImage now backend imageData log) = Abrupt e)
  ∧ (sent = Pending → fst (analyzeImage now backend imageData log) = Pending)
  ∧ (∀ r, sent = Normal r → ok r = true →
          (∀ e, body_json r = Abrupt e →
                fst (analyzeImage now backend imageData log) = Abrupt e)
          ∧ (body_json r = Pending →
             fst (analyzeImage now backend imageData log) = Pending))
  ∧ (∀ e, posted = Abrupt e →
          fst (verifyMedia now backend mediaData mimeType log) = Abrupt e)
  ∧ (posted = Pending →
     fst (verifyMedia now backend mediaData mimeType log) = Pending)
  ∧ (∀ r, posted = Normal r → ok r = true →
          (∀ e, body_json r = Abrupt e →
                fst (verifyMedia now backend mediaData mimeType log) = Abrupt e)
          ∧ (body_json r = Pending →
             fst (verifyMedia now backend mediaData mimeType log) = Pending)).
Proof.
  intros sent posted. subst sent posted.
  rewrite analyzeImage_cases, verifyMedia_cases.
  repeat split.
  - by intros e ->.
  - by intros ->.
  - intros e He. rewrite H, H0, He. done.
  - intros He. rewrite H, H0, He. done.
  - by intros e ->.
  - by intros ->.
  - intros e He. rewrite H, H0, He. done.
  - intros He. rewrite H, H0, He. done.
Qed.

(** X3.  A result is returned only for an answer with a status in 200..299
    whose body says [success: true]: every result a call returns has
    [success] true and repeats the label, confidence and timestamp of that
    body.  A result of [analyzeImage] never has a [media_info], a result of
    [verifyMedia] never has an [image_info]. *)
Theorem client_returns_only_successes
    (imageData mediaData mimeType : string) (log : list Effect) :
  (∀ result, fst (analyzeImage now backend imageData log) = Normal result →
     success result = true
     ∧ media_info result = None
     ∧ ∃ r data,
         backend analyzeUrl (analyzeInit now imageData) = Normal r
         ∧ ok r = true ∧ body_json r = Normal data ∧ api_success data = true
         ∧ label result = api_label data
         ∧ confidence result = api_confidence data
         ∧ timestamp result = api_timestamp data
         ∧ image_info result = api_image_info data)
  ∧ (∀ result, fst (verifyMedia now backend mediaData mimeType log) = Normal result →
       success result = true
       ∧ image_info result = None
       ∧ ∃ r data,
           backend verifyUrl (verifyInit now mediaData mimeType) = Normal r
           ∧ ok r = true ∧ body_json r = Normal data ∧ api_success data = true
           ∧ label result = api_label data
           ∧ confidence result = api_confidence data
           ∧ timestamp result = api_timestamp data
           ∧ media_info result = api_media_info data).
Proof.
  rewrite analyzeImage_cases, verifyMedia_cases.
  split; intros result.
  - destruct (backend analyzeUrl _) as [r|e|]; try done.
    destruct (ok r) eqn:Hok; [|done]. simpl.
    destruct (body_json r) as [data|e|] eqn:Hbody; try done.
    destruct (api_success data) eqn:Hsuccess; [|done].
    intros [= <-]. simpl. repeat split; try done.
    exists r, data. by rewrite Hbody.
  - destruct (backend verifyUrl _) as [r|e|]; try done.
    destruct (ok r) eqn:Hok; [|done]. simpl.
    destruct (body_json r) as [data|e|] eqn:Hbody; try done.
    destruct (api_success data) eqn:Hsuccess; [|done].
    intros [= <-]. simpl. repeat split; try done.
    exists r, data. by rewrite Hbody.
Qed.

End ClientProperties.

(** ** Scanning a frame and uploading a file *)

Section AppProperties.

Import Api Wire App.

Context {number : Type}.

Variable env : Env number.

(** The canvas after the frame of [video] was drawn on it, and what is
    sent for it. *)
Local Abbreviation shot video :=
  (mkCanvas (videoWidth video) (videoHeight video)
            (Some (mkDrawing video 0 0 (videoWidth video) (videoHeight video)))).

Local Abbreviation jpeg video :=
  (toDataURL env (shot video) "image/jpeg" (QArith_base.Qmake 8 10)).

Lemma handleWebcamAnalysis_cases (s : State number) (video : Video) (canvas : Canvas) :
  videoRef s = Some video →
  canvasRef s = Some canvas →
  isAnalyzing s = false →
  handleWebcamAnalysis env s =
  if getContext env then
    match analyzeImage (now env) (backend env) (jpeg video) (network s) with
    | (Normal r, log) =>
        (Normal tt,
         mkState (Some r) false "Analysis complete" (videoRef s) (Some (shot video)) log)
    | (Abrupt e, log) =>
        (Normal tt,
         mkState (result s) false ("Analysis failed: " +:+ errorText env e)
                 (videoRef s) (Some (shot video)) log)
    | (Pending, log) =>
        (Pending,
         mkState (result s) true "Analyzing image for deepfakes..." (videoRef s)
                 (Some (shot video)) log)
    end
  else
    (Normal tt,
     mkState (result s) false
             ("Analysis failed: " +:+ errorText env (nullContext env))
             (videoRef s)
             (Some (mkCanvas (videoWidth video) (videoHeight video) None))
             (network s)).
Proof.
  intros Hvideo Hcanvas Hidle.
  unfold handleWebcamAnalysis, bind, get. simpl. rewrite Hvideo, Hcanvas, Hidle.
  unfold try_finally, try_catch, capture, bind, call, throw, ret,
    setIsAnalyzing, setStatus, setCanvas, setResult, modify. simpl.
  destruct (getContext env); simpl; [|by rewrite Hvideo].
  destruct (analyzeImage _ _ _ _) as [[r|e|] log]; simpl; by rewrite Hvideo.
Qed.

Lemma handleFileUpload_cases (file : UploadForm.File) (s : State number) :
  handleFileUpload env file s =
  match readAsDataURL env file with
  | onerror =>
      (Normal tt,
       mkState (result s) false
               ("Upload failed: " +:+ errorText env (new_Error "Failed to read file"))
               (videoRef s) (canvasRef s) (network s))
  | onload data =>
      match verifyMedia (now env) (backend env) data (UploadForm.file_type file)
                        (network s) with
      | (Normal r, log) =>
          (Normal tt,
           mkState (Some r) false "Analysis complete" (videoRef s) (canvasRef s) log)
      | (Abrupt e, log) =>
          (Normal tt,
           mkState (result s) false ("Upload failed: " +:+ errorText env e)
                   (videoRef s) (canvasRef s) log)
      | (Pending, log) =>
          (Pending,
           mkState (result s) true "Analyzing media for deepfakes..." (videoRef s)
                   (canvasRef s) log)
      end
  end.
Proof.
  unfold handleFileUpload, try_finally, try_catch, bind, call, await, readFile,
    setIsAnalyzing, setStatus, setResult, modify. simpl.
  destruct (readAsDataURL env file) as [data|]; simpl; [|done].
  by destruct (verifyMedia _ _ _ _ _) as [[r|e|] log].
Qed.

Lemma handleWebcamAnalysis_guard (s : State number) :
  isAnalyzing s = true ∨ videoRef s = None ∨ canvasRef s = None →
  handleWebcamAnalysis env s = (Normal tt, s).
Proof.
  unfold handleWebcamAnalysis, bind, get. simpl.
  intros [H|[H|H]]; rewrite H.
  - by destruct (videoRef s), (canvasRef s).
  - done.
  - by destruct (videoRef s).
Qed.

(** X4.  A scan that is asked for while another analysis is running, or
    before the video or the canvas is there, does nothing at all: the state
    keeps its value, and so nothing goes to the network. *)
Theorem scan_is_skipped_when_busy (s : State number) :
  isAnalyzing s = true ∨ videoRef s = None ∨ canvasRef s = None →
  handleWebcamAnalysis env s = (Normal tt, s)
  ∧ network (snd (handleWebcamAnalysis env s)) = network s.
Proof.
  intros H. by rewrite handleWebcamAnalysis_guard.
Qed.

(** X5.  A scan that the backend answers with a result: the canvas has
    taken the size of the video and holds its whole frame, the one request
    that went out carries that canvas encoded as JPEG at quality 0.8, and
    the popup ends idle with the result stored and the status [Analysis
    complete]. *)
Theorem scan_shows_the_result
    (s : State number) (video : Video) (canvas : Canvas) (r : AnalysisResult number) :
  videoRef s = Some video →
  canvasRef s = Some canvas →
  isAnalyzing s = false →
  getContext env = true →
  fst (analyzeImage (now env) (backend env) (jpeg video) (network s)) = Normal r →
  let after := snd (handleWebcamAnalysis env s) in
  fst (handleWebcamAnalysis env s) = Normal tt
  ∧ result after = Some r
  ∧ status after = "Analysis complete"
  ∧ isAnalyzing after = false
  ∧ canvasRef after
    = Some (mkCanvas (videoWidth video) (videoHeight video)
              (Some (mkDrawing video 0 0 (videoWidth video) (videoHeight video))))
  ∧ network after
    = network s ++ [Fetch "http://localhost:5000/analyze"
                      (mkRequestInit "POST" [("Content-Type", "application/json")]
                         [("image", jpeg video); ("timestamp", now env)]);
                    ReadBody].
Proof.
  intros Hvideo Hcanvas Hidle Hctx Hcall after. subst after.
  rewrite (handleWebcamAnalysis_cases s video canvas) by done. rewrite Hctx.
  rewrite analyzeImage_cases in *.
  destruct (backend env analyzeUrl _) as [resp|e|]; try done.
  destruct (ok resp); [|done]. simpl in *.
  destruct (body_json resp) as [data|e|]; try done.
  destruct (api_success data); [|done].
  injection Hcall as <-. done.
Qed.

(** X6.  A scan that fails, be it that the canvas gives no 2d context or
    that the client throws, never throws itself and leaves the result
    that was on display where it is; the popup ends idle, and the status
    reads [Analysis failed: ] followed by the message of the error, or by
    [Unknown error] when what was thrown is no [Error]. *)
Theorem scan_failure_keeps_the_result
    (s : State number) (video : Video) (canvas : Canvas) (e : Thrown) :
  videoRef s = Some video →
  canvasRef s = Some canvas →
  isAnalyzing s = false →
  (getContext env = false ∧ e = nullContext env)
  ∨ (getContext env = true
     ∧ fst (analyzeImage (now env) (backend env) (jpeg video) (network s)) = Abrupt e) →
  let after := snd (handleWebcamAnalysis env s) in
  fst (handleWebcamAnalysis env s) = Normal tt
  ∧ result after = result s
  ∧ isAnalyzing after = false
  ∧ status after
    = "Analysis failed: "
      +:+ (if instanceofError env e
           then match e with ThrownObject _ (Some m) => m | _ => EmptyString end
           else "Unknown error").
Proof.
  intros Hvideo Hcanvas Hidle Hfail after. subst after.
  rewrite (handleWebcamAnalysis_cases s video canvas) by done.
  destruct Hfail as [[-> ->]|[-> Hcall]]; [done|].
  destruct (analyzeImage _ _ _ _) as [[r|e'|] log]; simpl in *; try done.
  by injection Hcall as ->.
Qed.

(** X7.  Neither handler ever throws.  A scan that comes to an end leaves
    the busy flag as it found it, an upload that comes to an end leaves it
    off; a handler that does not come to an end, because the backend never
    answers, leaves the flag on, so that the popup stays busy. *)
Theorem handlers_release_the_busy_flag (s : State number) (file : UploadForm.File) :
  (∀ e, fst (handleWebcamAnalysis env s) ≠ Abrupt e)
  ∧ (∀ e, fst (handleFileUpload env file s) ≠ Abrupt e)
  ∧ (fst (handleWebcamAnalysis env s) = Normal tt →
     isAnalyzing (snd (handleWebcamAnalysis env s)) = isAnalyzing s)
  ∧ (fst (handleFileUpload env file s) = Normal tt →
     isAnalyzing (snd (handleFileUpload env file s)) = false)
  ∧ (fst (handleWebcamAnalysis env s) = Pending →
     isAnalyzing (snd (handleWebcamAnalysis env s)) = true)
  ∧ (fst (handleFileUpload env file s) = Pending →
     isAnalyzing (snd (handleFileUpload env file s)) = true).
Proof.
  assert (Hscan : (∀ e, fst (handleWebcamAnalysis env s) ≠ Abrupt e)
                  ∧ (fst (handleWebcamAnalysis env s) = Normal tt →
                     isAnalyzing (snd (handleWebcamAnalysis env s)) = isAnalyzing s)
                  ∧ (fst (handleWebcamAnalysis env s) = Pending →
                     isAnalyzing (snd (handleWebcamAnalysis env s)) = true)).
  { destruct (isAnalyzing s) eqn:Hbusy.
    { rewrite handleWebcamAnalysis_guard by auto. simpl. repeat split; done. }
    destruct (videoRef s) as [video|] eqn:Hvideo;
      [|rewrite handleWebcamAnalysis_guard by auto; simpl; repeat split; done].
    destruct (canvasRef s) as [canvas|] eqn:Hcanvas;
      [|rewrite handleWebcamAnalysis_guard by auto; simpl; repeat split; done].
    rewrite (handleWebcamAnalysis_cases s video canvas) by done.
    destruct (getContext env); [|done].
    by destruct (analyzeImage _ _ _ _) as [[r|e'|] log]. }
  destruct Hscan as (Hs1 & Hs2 & Hs3).
  rewrite handleFileUpload_cases.
  repeat split; try done.
  all: destruct (readAsDataURL env file) as [data|]; try done.
  all: by destruct (verifyMedia _ _ _ _ _) as [[r|e'|] log].
Qed.

(** X8.  A file the reader cannot read is not sent: the upload ends idle
    without any request, with the result on display untouched and the
    status [Upload failed: Failed to read file] (or [Upload failed: Unknown
    error] should the error not count as an [Error]). *)
Theorem unreadable_file_is_not_sent (s : State number) (file : UploadForm.File) :
  readAsDataURL env file = onerror →
  let after := snd (handleFileUpload env file s) in
  fst (handleFileUpload env file s) = Normal tt
  ∧ network after = network s
  ∧ result after = result s
  ∧ isAnalyzing after = false
  ∧ status after
    = "Upload failed: "
      +:+ (if instanceofError env (new_Error "Failed to read file")
           then "Failed to read file" else "Unknown error").
Proof.
  intros Hread after. subst after.
  rewrite handleFileUpload_cases, Hread. done.
Qed.

(** X9.  A file that was read is sent once, to the verification endpoint,
    as the data URI the reader gave together with the type of the file.
    When the client returns a result it is stored and the status reads
    [Analysis complete]; when the client throws, the result on display stays
    and the status starts with [Upload failed: ]. *)
Theorem upload_sends_the_file
    (s : State number) (file : UploadForm.File) (data : string) :
  readAsDataURL env file = onload data →
  let after := snd (handleFileUpload env file s) in
  let request :=
    Fetch "http://localhost:5000/verify-media"
      (mkRequestInit "POST" [("Content-Type", "application/json")]
         [("media", data); ("type", UploadForm.file_type file);
          ("timestamp", now env)]) in
  (network after = network s ++ [request]
   ∨ network after = network s ++ [request; ReadBody])
  ∧ (∀ r, fst (verifyMedia (now env) (backend env) data (UploadForm.file_type file)
                 (network s)) = Normal r →
          result after = Some r ∧ status after = "Analysis complete")
  ∧ (∀ e, fst (verifyMedia (now env) (backend env) data (UploadForm.file_type file)
                 (network s)) = Abrupt e →
          result after = result s
          ∧ startsWith "Upload failed: " (status after) = true).
Proof.
  intros Hread after request. subst after request.
  rewrite handleFileUpload_cases, Hread.
  rewrite verifyMedia_cases.
  change verifyUrl with "http://localhost:5000/verify-media".
  unfold verifyInit.
  destruct (backend env _ _) as [resp|e|]; simpl;
    [destruct (ok resp); simpl;
     [destruct (body_json resp) as [body|e|]; simpl;
      [destruct (api_success body); simpl| |] |] | |].
  all: split; [auto|].
  all: split; intros x Hx; simpl in Hx; simplify_eq; done.
Qed.

(** X10.  The upload button is disabled exactly when a click on it would
    do nothing: with no file selected, or while an analysis is running, the
    click changes nothing and sends nothing; otherwise the click uploads the
    selected file. *)
Theorem upload_button_matches_click (form : UploadForm.State) (s : State number) :
  (UploadForm.uploadDisabled form (isAnalyzing s) = true →
   uploadClicked env form s = (Normal tt, s))
  ∧ (UploadForm.uploadDisabled form (isAnalyzing s) = false →
     ∃ file, UploadForm.selectedFile form = Some file
             ∧ uploadClicked env form s = handleFileUpload env file s).
Proof.
  unfold UploadForm.uploadDisabled, uploadClicked, UploadForm.handleUpload,
    bind, get. simpl.
  destruct (UploadForm.selectedFile form) as [file|], (isAnalyzing s); simpl;
    split; try done.
  intros _. by exists file.
Qed.

End AppProperties.

(** ** The upload form *)

Section UploadFormProperties.

Import UploadForm.

Lemma append_assoc (a b c : string) : (a +:+ b) +:+ c = a +:+ (b +:+ c).
Proof.
  induction a as [|x a IH]; [done|]. by rewrite !append_cons, IH.
Qed.

(** The number of hundredths of a megabyte that [toFixed(2)] prints for a
    size: the size times 100 over [2^20], rounded to the nearest integer,
    upwards on a tie. *)
Lemma hundredths (bytes : N) :
  Qround.Qfloor
    (QArith_base.Qplus
       (QArith_base.Qmult
          (QArith_base.Qdiv
             (QArith_base.Qdiv (QArith_base.inject_Z (Z.of_N bytes))
                               (QArith_base.inject_Z 1024))
             (QArith_base.inject_Z 1024))
          (QArith_base.inject_Z 100))
       (QArith_base.Qmake 1 2))
  = ((Z.of_N bytes * 100 + 524288) `div` 1048576)%Z.
Proof.
  unfold Qround.Qfloor, QArith_base.Qdiv, QArith_base.Qmult, QArith_base.Qplus,
    QArith_base.Qinv, QArith_base.inject_Z. simpl.
  change (Z.pos (1 * 1024 * 1024 * 1 * 2)) with (2 * 1048576)%Z.
  change (Z.pos (1 * 1024 * 1024 * 1)) with 1048576%Z.
  replace (Z.of_N bytes * 1 * 1 * 100 * 2 + 1 * 1048576)%Z
    with (2 * (Z.of_N bytes * 100 + 524288))%Z by lia.
  apply Z.div_mul_cancel_l; lia.
Qed.

(** X11.  The size shown for a file: every file of at most 5242 bytes is
    shown as [0.00 MB], a file of 5243 bytes is the first shown as
    [0.01 MB], and a file of a whole number [k] of mebibytes is shown as
    [k.00 MB]. *)
Theorem formatFileSize_rounds_to_hundredths (bytes k : N) :
  ((bytes ≤ 5242)%N → formatFileSize bytes = "0.00 MB")
  ∧ formatFileSize 5243 = "0.01 MB"
  ∧ formatFileSize (k * 1048576) = string_of_N k +:+ ".00 MB".
Proof.
  split; [|split; [reflexivity|]].
  - intros H. unfold formatFileSize, toFixed2. rewrite hundredths.
    rewrite Z.div_small by lia. reflexivity.
  - unfold formatFileSize, toFixed2. rewrite hundredths.
    replace (((Z.of_N (k * 1048576) * 100 + 524288) `div` 1048576))%Z
      with (Z.of_N (100 * k))
      by (apply Z.div_unique with (r := 524288%Z); lia).
    rewrite N2Z.id.
    replace ((100 * k) `div` 100)%N with k
      by (apply N.div_unique with (r := 0%N); lia).
    replace ((100 * k) `mod` 100)%N with 0%N
      by (apply N.mod_unique with (q := k); lia).
    replace ((100 * k) `mod` 10)%N with 0%N
      by (apply N.mod_unique with (q := (10 * k)%N); lia).
    by rewrite append_assoc.
Qed.

(** X12.  What a click on the upload button hands on is decided by the
    last selection: after files were chosen it is the first of them, and
    only that one; after an empty or missing selection, or after the form
    was cleared, the click hands on nothing.  Clearing also empties the
    file input when it is attached. *)
Theorem selection_decides_the_upload
    {S : Type} (onFileUpload : File → JS.Async S unit) (isProcessing : bool)
    (form : State) (file : File) (others : list File) (s : S) :
  handleUpload isProcessing onFileUpload
    (snd (handleFileSelect (Some (file :: others)) form)) s
  = (if isProcessing then (Normal tt, s) else onFileUpload file s)
  ∧ handleUpload isProcessing onFileUpload (snd (handleFileSelect (Some []) form)) s
    = (Normal tt, s)
  ∧ handleUpload isProcessing onFileUpload (snd (handleFileSelect None form)) s
    = (Normal tt, s)
  ∧ handleUpload isProcessing onFileUpload (snd (clearFile form)) s = (Normal tt, s)
  ∧ fileInput (snd (clearFile form))
    = match fileInput form with Some _ => Some EmptyString | None => None end.
Proof.
  unfold handleUpload, handleFileSelect, clearFile, bind, get, modify, ret. simpl.
  repeat split.
  - by destruct isProcessing.
  - by destruct (fileInput form).
  - by destruct (fileInput form).
Qed.

End UploadFormProperties.

(** ** Starting and stopping the camera *)

Section CameraProperties.

Import Webcam View.

Variable env : Env.




Lemma recover_completes (e : Thrown) (s : State) :
  fst (recover env e s) = Normal tt
  ∧ isCameraActive (snd (recover env e s)) = false
  ∧ isRequestingCamera (snd (recover env e s)) = isRequestingCamera s
  ∧ streamRef (snd (recover env e s)) = streamRef s
  ∧ videoRef (snd (recover env e s)) = videoRef s
  ∧ trackStore (snd (recover env e s)) = trackStore s
  ∧ status (snd (recover env e s)) = errorMessage (classify e).
Proof.
  unfold recover, bind, when, setPermissionStatus, setCameraError, onStatusUpdate,
    setIsCameraActive, modify, ret.
  destruct (marksDenied (classify e)), (showPermissionButton (classify e)),
    (isExtension env); done.
Qed.



End CameraProperties.

Section CameraRuns.

Import Webcam View.

Variable env : Env.

Lemma started_tracks_are_live (stream : MediaStream) :
  ∀ (store : gmap nat ReadyState) (track : nat),
    track ∈ stream ∨ store !! track = Some live →
    foldl start store stream !! track = Some live.
Proof.
  induction stream as [|t stream IH]; intros store track H; simpl.
  - destruct H as [H|H]; [by apply elem_of_nil in H|done].
  - apply IH. destruct H as [H|H].
    + apply elem_of_cons in H as [->|H]; [right|by left].
      unfold start. apply lookup_insert_eq.
    + right. unfold start. destruct (decide (t = track)) as [->|Hne].
      * apply lookup_insert_eq.
      * by rewrite lookup_insert_ne.
Qed.

Lemma other_tracks_are_kept (stream : MediaStream) :
  ∀ (store : gmap nat ReadyState) (track : nat),
    track ∉ stream →
    foldl stop store stream !! track = store !! track.
Proof.
  induction stream as [|t stream IH]; intros store track H; simpl; [done|].
  apply not_elem_of_cons in H as [Hne Hnot].
  rewrite IH by done. unfold stop. by rewrite lookup_insert_ne.
Qed.

(** The host page lets the popup go on to the camera: the popup is no
    extension, or the page has the permission already, or it grants it on
    request. *)
Local Abbreviation permitted :=
  (isExtension env = false
   ∨ (∀ s, checkPermissionStatus env s = (Normal true, s))
   ∨ ((∀ s, checkPermissionStatus env s = (Normal false, s))
      ∧ (∀ s, requestPermissionViaContentScript env s = (Normal true, s)))).

(** Where [startCamera] stands when the camera has handed out [stream] and
    the video has been bound to it: all that is left is the wait for the
    metadata and the start of the playback. *)
Lemma startCamera_bound
    (s : State) (gum : MediaStreamConstraints → Completion MediaStream)
    (stream : MediaStream) (v : VideoElement) :
  permitted →
  getUserMedia env = Some gum →
  gum constraints = Normal stream →
  videoRef s = Some v →
  let bound :=
    mkState (isCameraActive s) None true requesting (Some stream)
            (Some (mkVideo (Some stream)))
            (foldl start (trackStore s) (getTracks stream))
            "Accessing camera..." (createdTabs s) in
  startCamera env s =
  match metadataWait (videoEvents env) with
  | Some (_, Normal _) =>
      match play env with
      | Normal _ =>
          (Normal tt,
           with_isRequestingCamera false
             (with_status ("Camera ready - Click " +:+ quot +:+ "Scan Frame"
                           +:+ quot +:+ " to analyze")
                (with_permissionStatus granted (with_isCameraActive true bound))))
      | Abrupt e =>
          (Normal tt, with_isRequestingCamera false (snd (recover env e bound)))
      | Pending => (Pending, bound)
      end
  | Some (_, Abrupt e) =>
      (Normal tt, with_isRequestingCamera false (snd (recover env e bound)))
  | Some (_, Pending) | None => (Pending, bound)
  end.
Proof.
  intros Hpermitted Hgum Hstream Hvideo bound. subst bound.
  unfold startCamera, try_finally, try_catch, acquire, awaitMetadata,
    bind, when, await, throw, ret, get, modify,
    setIsRequestingCamera, onStatusUpdate, setCameraError, setPermissionStatus,
    setIsCameraActive.
  simpl. rewrite Hgum.
  assert (Hrecover : ∀ e s1 (c : Completion unit) s2,
             recover env e s1 = (c, s2) →
             (Normal tt, with_isRequestingCamera false s2)
             = (Normal tt : Completion unit,
                with_isRequestingCamera false (snd (recover env e s1)))
               ∧ c = Normal tt).
  { intros e s1 c s2 Hr. pose proof (recover_completes env e s1) as [Hc _].
    rewrite Hr in *. done. }
  destruct Hpermitted as [Hext|[Hcheck|[Hcheck Hrequest]]].
  - rewrite Hext. simpl. rewrite Hstream. simpl. rewrite Hvideo. simpl.
    destruct (metadataWait (videoEvents env)) as [[t [[]|e|]]|]; simpl; try done.
    all: try (destruct (play env) as [[]|e|]; simpl; try done).
    all: match goal with |- context [recover env ?e ?s1] =>
           destruct (recover env e s1) as [c s2] eqn:Hr end;
      destruct (Hrecover _ _ _ _ Hr) as [Heq ->]; exact Heq.
  - destruct (isExtension env); simpl; rewrite ?Hcheck; simpl;
      rewrite Hstream; simpl; rewrite Hvideo; simpl.
    all: destruct (metadataWait (videoEvents env)) as [[t [[]|e|]]|]; simpl; try done.
    all: try (destruct (play env) as [[]|e|]; simpl; try done).
    all: match goal with |- context [recover env ?e ?s1] =>
           destruct (recover env e s1) as [c s2] eqn:Hr end;
      destruct (Hrecover _ _ _ _ Hr) as [Heq ->]; exact Heq.
  - destruct (isExtension env); simpl; rewrite ?Hcheck; simpl;
      rewrite ?Hrequest; simpl; rewrite Hstream; simpl; rewrite Hvideo; simpl.
    all: destruct (metadataWait (videoEvents env)) as [[t [[]|e|]]|]; simpl; try done.
    all: try (destruct (play env) as [[]|e|]; simpl; try done).
    all: match goal with |- context [recover env ?e ?s1] =>
           destruct (recover env e s1) as [c s2] eqn:Hr end;
      destruct (Hrecover _ _ _ _ Hr) as [Heq ->]; exact Heq.
Qed.

(** X14.  When the host page lets the popup go on, the camera hands out
    a stream, the video reports its metadata before the timeout and the
    playback starts, [startCamera] ends with the camera active, the
    permission state [granted], no error, the stream held by the component
    and bound to the video, every track of the stream live, and the status
    that invites to scan a frame. *)
Theorem startCamera_activates_the_camera
    (s : State) (gum : MediaStreamConstraints → Completion MediaStream)
    (stream : MediaStream) (v : VideoElement) (t : N) :
  permitted →
  getUserMedia env = Some gum →
  gum constraints = Normal stream →
  videoRef s = Some v →
  metadataWait (videoEvents env) = Some (t, Normal tt) →
  play env = Normal tt →
  let after := snd (startCamera env s) in
  fst (startCamera env s) = Normal tt
  ∧ isCameraActive after = true
  ∧ permissionStatus after = granted
  ∧ cameraError after = None
  ∧ isRequestingCamera after = false
  ∧ streamRef after = Some stream
  ∧ videoRef after = Some (mkVideo (Some stream))
  ∧ (∀ track, track ∈ getTracks stream → trackStore after !! track = Some live)
  ∧ status after = "Camera ready - Click " +:+ quot +:+ "Scan Frame" +:+ quot
                   +:+ " to analyze"
  ∧ hasButton Dom.StopCamera (render env after false) = true.
Proof.
  intros Hpermitted Hgum Hstream Hvideo Hwait Hplay after. subst after.
  rewrite (startCamera_bound s gum stream v) by done.
  rewrite Hwait, Hplay. simpl.
  repeat split.
  intros track Hin. apply started_tracks_are_live. by left.
Qed.

(** X15.  When the stream has been handed out and bound but the video
    then fails, times out, or refuses to play, [startCamera] ends with the
    camera marked inactive while the stream is still held and bound and
    every one of its tracks is still live: nothing stops them, and the
    render offers no stop button. *)
Theorem failed_start_keeps_the_stream
    (s : State) (gum : MediaStreamConstraints → Completion MediaStream)
    (stream : MediaStream) (v : VideoElement) (t : N) (e : Thrown) :
  permitted →
  getUserMedia env = Some gum →
  gum constraints = Normal stream →
  videoRef s = Some v →
  metadataWait (videoEvents env) = Some (t, Abrupt e)
  ∨ (metadataWait (videoEvents env) = Some (t, Normal tt) ∧ play env = Abrupt e) →
  let after := snd (startCamera env s) in
  fst (startCamera env s) = Normal tt
  ∧ isCameraActive after = false
  ∧ isRequestingCamera after = false
  ∧ status after = errorMessage (classify e)
  ∧ streamRef after = Some stream
  ∧ videoRef after = Some (mkVideo (Some stream))
  ∧ (∀ track, track ∈ getTracks stream → trackStore after !! track = Some live)
  ∧ (∀ isAnalyzing, hasButton Dom.StopCamera (render env after isAnalyzing) = false).
Proof.
  intros Hpermitted Hgum Hstream Hvideo Hfail after. subst after.
  rewrite (startCamera_bound s gum stream v) by done.
  match goal with |- context [recover env _ ?b] =>
    pose proof (recover_completes env e b) as (_ & Hactive & _ & Hheld & Hbound & Htracks & Hstatus)
  end.
  assert (Hgoal : ∀ s2, isCameraActive s2 = false →
            ∀ isAnalyzing,
              hasButton Dom.StopCamera
                (render env (with_isRequestingCamera false s2) isAnalyzing) = false).
  { intros s2 Hs2 b. unfold hasButton, render, cameraControls, videoContainer,
      errorAlert, requestingNotice. simpl. rewrite Hs2. simpl.
    destruct (shownError _), (permissionStatus s2), b, (isExtension env); reflexivity. }
  destruct Hfail as [->|[-> ->]]; simpl.
  all: rewrite Hheld, Hbound, Htracks, Hstatus, Hactive; simpl.
  all: repeat split; try done.
  all: try (intros track Hin; apply started_tracks_are_live; by left).
  all: by apply Hgoal.
Qed.

(** X16.  Starting the camera and then stopping it releases what the start
    acquired: every track of the stream that was handed out is ended, the
    stream is neither held nor bound to the video any more, the camera is
    inactive and the permission state is back to [unknown]. *)
Theorem stop_releases_what_start_acquired
    (s : State) (gum : MediaStreamConstraints → Completion MediaStream)
    (stream : MediaStream) (v : VideoElement) (t : N) :
  permitted →
  getUserMedia env = Some gum →
  gum constraints = Normal stream →
  videoRef s = Some v →
  metadataWait (videoEvents env) = Some (t, Normal tt) →
  play env = Normal tt →
  let stopped := snd (stopCamera (snd (startCamera env s))) in
  (∀ track, track ∈ getTracks stream → trackStore stopped !! track = Some ended)
  ∧ streamRef stopped = None
  ∧ videoRef stopped = Some (mkVideo None)
  ∧ isCameraActive stopped = false
  ∧ permissionStatus stopped = unknown
  ∧ (∀ isAnalyzing, hasButton Dom.StartCamera (render env stopped isAnalyzing) = true).
Proof.
  intros Hpermitted Hgum Hstream Hvideo Hwait Hplay stopped. subst stopped.
  rewrite (startCamera_bound s gum stream v) by done.
  rewrite Hwait, Hplay. rewrite stopCamera_state. simpl.
  repeat split.
  intros track Hin. apply stopped_tracks_are_ended. by left.
Qed.

End CameraRuns.

(** ** Refusals, messages and what is on screen *)

Section ControllerProperties.

Import Webcam View.

Variable env : Env.

(** X17.  In an extension whose host page neither has the camera
    permission nor grants it on request, [startCamera] never asks the
    browser for the camera: no stream is held and no track is created.  It
    ends with the permission state [denied], the camera inactive, the
    message that the permission request failed together with the hint at
    the permission page as the error, and the button that opens that page
    on screen. *)
Theorem refused_permission_asks_no_camera
    (s : State) (gum : MediaStreamConstraints → Completion MediaStream) :
  isExtension env = true →
  (∀ s, checkPermissionStatus env s = (Normal false, s)) →
  (∀ s, requestPermissionViaContentScript env s = (Normal false, s)) →
  getUserMedia env = Some gum →
  let after := snd (startCamera env s) in
  fst (startCamera env s) = Normal tt
  ∧ permissionStatus after = denied
  ∧ isCameraActive after = false
  ∧ isRequestingCamera after = false
  ∧ streamRef after = streamRef s
  ∧ trackStore after = trackStore s
  ∧ status after
    = "Permission request failed. Please try opening the permission page manually."
  ∧ cameraError after
    = Some ("Permission request failed. Please try opening the permission page manually. Click "
            +:+ quot +:+ "Open Permission Page" +:+ quot +:+ " below to grant access.")
  ∧ (∀ isAnalyzing, offersPermissionPage env after isAnalyzing = true).
Proof.
  intros Hext Hcheck Hrequest Hgum after. subst after.
  unfold startCamera, try_finally, try_catch, acquire,
    bind, when, throw, ret, modify,
    setIsRequestingCamera, onStatusUpdate, setCameraError, setPermissionStatus.
  simpl. rewrite Hgum, Hext. simpl. rewrite Hcheck. simpl. rewrite Hrequest. simpl.
  unfold recover, offersPermissionPage, render, errorAlert, bind, when, modify,
    setIsRequestingCamera, onStatusUpdate, setCameraError, setPermissionStatus,
    setIsCameraActive. simpl.
  rewrite Hext. simpl. repeat split.
Qed.

(** X18.  In a browser without [getUserMedia], [startCamera] contacts
    neither the host page nor the camera: it ends with the camera inactive,
    no stream held, the error and the status [Camera API not supported in
    this browser], and no permission button. *)
Theorem missing_camera_api_is_reported (s : State) :
  getUserMedia env = None →
  let after := snd (startCamera env s) in
  fst (startCamera env s) = Normal tt
  ∧ cameraError after = Some "Camera API not supported in this browser"
  ∧ status after = "Camera API not supported in this browser"
  ∧ isCameraActive after = false
  ∧ isRequestingCamera after = false
  ∧ streamRef after = streamRef s
  ∧ trackStore after = trackStore s
  ∧ (∀ isAnalyzing, offersPermissionPage env after isAnalyzing = false).
Proof.
  intros Hgum after. subst after.
  unfold startCamera, try_finally, try_catch, acquire,
    bind, when, throw, ret, modify,
    setIsRequestingCamera, onStatusUpdate, setCameraError, setPermissionStatus.
  simpl. rewrite Hgum. simpl.
  unfold recover, offersPermissionPage, render, errorAlert, bind, when, modify,
    setIsRequestingCamera, onStatusUpdate, setCameraError, setPermissionStatus,
    setIsCameraActive. simpl.
  repeat split.
Qed.

(** X19.  Stopping the camera and unmounting the component only ever stop
    tracks of the stream the component holds: the state of every other
    track is what it was. *)
Theorem other_tracks_are_spared (s : State) (track : nat) :
  (∀ stream, streamRef s = Some stream → track ∉ getTracks stream) →
  trackStore (snd (stopCamera s)) !! track = trackStore s !! track
  ∧ trackStore (snd (unmount s)) !! track = trackStore s !! track.
Proof.
  intros Hother. rewrite stopCamera_state.
  unfold unmount, stopTracks, bind, get, modify, ret. simpl.
  destruct (streamRef s) as [stream|]; simpl; [|done].
  rewrite other_tracks_are_kept by auto. done.
Qed.

(** X20.  Unmounting ends every track of the held stream and changes
    nothing else: unlike [stopCamera] it leaves the stream reference, the
    binding of the video, the permission state, the error and the status as
    they are. *)
Theorem unmount_only_ends_the_tracks (s : State) :
  let after := snd (unmount s) in
  fst (unmount s) = Normal tt
  ∧ (∀ stream track, streamRef s = Some stream → track ∈ getTracks stream →
       trackStore after !! track = Some ended)
  ∧ after = with_trackStore (trackStore after) s.
Proof.
  unfold unmount, stopTracks, bind, get, modify, ret. simpl.
  destruct (streamRef s) as [stream|] eqn:Hstream; simpl.
  - repeat split; try done.
    intros stream' track [= <-] Hin. apply stopped_tracks_are_ended. by left.
  - repeat split; try done. by destruct s.
Qed.

(** X21.  A message of the extension runtime is ignored, state untouched,
    when its action is not [cameraPermissionUpdate], and every message is
    when the popup is no extension. *)
Theorem other_messages_are_ignored (rendered s : State) (m : Message) :
  action m ≠ "cameraPermissionUpdate" ∨ isExtension env = false →
  receive env rendered m s = (Normal tt, s).
Proof.
  unfold receive, listener, handleMessage, when.
  intros [Haction|Hext].
  - apply String.eqb_neq in Haction.
    destruct (isExtension env); [|done]. by rewrite Haction.
  - by rewrite Hext.
Qed.

Lemma or_else_truthy (a : option string) (d : string) :
  truthy d = true → truthy (or_else a d) = true.
Proof.
  intros Hd. unfold or_else. destruct a as [m|]; [|done].
  by destruct (truthy m) eqn:Hm.
Qed.

(** X22.  In an extension, a permission update that refuses the camera
    sets the permission state to [denied] and the camera error to the
    error text of the message, or to [Camera permission denied] when the
    message has none or an empty one; the status line is not changed, and
    the button that opens the permission page is on screen afterwards. *)
Theorem refusal_update_offers_the_page (rendered s : State) (m : Message) :
  isExtension env = true →
  action m = "cameraPermissionUpdate" →
  msg_granted m = false →
  let after := snd (receive env rendered m s) in
  permissionStatus after = denied
  ∧ cameraError after
    = Some (match msg_error m with
            | Some (String c text) => String c text
            | _ => "Camera permission denied"
            end)
  ∧ status after = status s
  ∧ (∀ isAnalyzing, offersPermissionPage env after isAnalyzing = true).
Proof.
  intros Hext Haction Hrefused after. subst after.
  unfold receive, listener, handleMessage, when, bind, modify,
    setPermissionStatus, setCameraError.
  rewrite Hext, Haction, Hrefused. simpl.
  repeat split.
  - by destruct (msg_error m) as [[|c text]|].
  - intros b. unfold offersPermissionPage, render, errorAlert, shownError. simpl.
    rewrite Hext. rewrite (or_else_truthy (msg_error m) "Camera permission denied") by done.
    simpl. reflexivity.
Qed.

(** X23.  Which camera controls are on screen: the start button exactly
    when the camera is inactive, the scan and the stop button exactly when
    it is active.  The start button is disabled exactly while a request is
    running, the scan button exactly while an analysis is running. *)
Theorem camera_controls_follow_the_state (s : State) (isAnalyzing : bool) :
  hasButton Dom.StartCamera (render env s isAnalyzing) = negb (isCameraActive s)
  ∧ hasButton Dom.StopCamera (render env s isAnalyzing) = isCameraActive s
  ∧ hasButton Dom.Analyze (render env s isAnalyzing) = isCameraActive s
  ∧ hasDisabledButton Dom.StartCamera (render env s isAnalyzing)
    = negb (isCameraActive s) && isRequestingCamera s
  ∧ hasDisabledButton Dom.Analyze (render env s isAnalyzing)
    = isCameraActive s && isAnalyzing.
Proof.
  unfold hasButton, hasDisabledButton, render, errorAlert, requestingNotice,
    videoContainer, cameraControls.
  destruct (shownError s), (permissionStatus s), (isCameraActive s),
    (isRequestingCamera s), isAnalyzing, (isExtension env); repeat split.
Qed.

(** X24.  The button that opens the permission page is on screen exactly
    when the popup is an extension, the permission state is [denied] and a
    camera error that is not the empty text is on display. *)
Theorem permission_button_needs_an_error (s : State) (isAnalyzing : bool) :
  offersPermissionPage env s isAnalyzing = true
  ↔ isExtension env = true
    ∧ permissionStatus s = denied
    ∧ ∃ m, cameraError s = Some m ∧ m ≠ EmptyString.
Proof.
  unfold offersPermissionPage, render, errorAlert, requestingNotice,
    videoContainer, cameraControls, shownError.
  destruct (cameraError s) as [[|c m]|]; simpl.
  - destruct (permissionStatus s), (isCameraActive s), isAnalyzing; simpl;
      split; try done; intros (_ & _ & m & [= <-] & Hm); done.
  - destruct (permissionStatus s), (isCameraActive s), isAnalyzing,
      (isExtension env); simpl; split; try done;
      try (intros (? & ? & ?); done); intros _; repeat split; eauto.
  - destruct (permissionStatus s), (isCameraActive s), isAnalyzing; simpl;
      split; try done; intros (_ & _ & m & ? & _); done.
Qed.

(** X25.  A click on the permission button opens exactly one tab, on the
    [permission.html] page of the extension, when the popup is an extension
    that has the tabs API; otherwise the click does nothing. *)
Theorem permission_page_needs_the_tabs_api (s : State) :
  (isExtension env = false ∨ chromeTabs env = None →
   openPermissionPage env s = (Normal tt, s))
  ∧ (∀ chrome r api,
       getChromeAPI env = Some chrome → runtime chrome = Some r →
       tabs chrome = Some api → isExtension env = true →
       openPermissionPage env s
       = (Normal tt,
          with_createdTabs (createdTabs s ++ [getURL r "permission.html"]) s)).
Proof.
  unfold openPermissionPage, chromeTabs, when.
  split.
  - intros [Hext|Htabs].
    + rewrite Hext. by repeat case_match.
    + destruct (getChromeAPI env) as [chrome|]; [|done].
      rewrite Htabs. by destruct (runtime chrome).
  - intros chrome r api -> -> -> ->. done.
Qed.

End ControllerProperties.

(** ** The first event of the video *)

Section WaitProperties.

Import Webcam.

Lemma taskQueue_keeps_the_earliest
    (events : list (N * VideoEvent)) (t : N) (ev : VideoEvent) :
  (∀ e, e ∈ events → e = (t, ev) ∨ (t < fst e)%N) →
  ∀ q, head q = Some (t, Dispatch ev) →
       head (foldl (λ q e, enqueue (fst e, Dispatch (snd e)) q) q events)
       = Some (t, Dispatch ev).
Proof.
  induction events as [|e events IH]; intros Hall q Hq; simpl; [done|].
  apply IH.
  - intros e' He'. apply Hall, elem_of_cons. by right.
  - destruct q as [|y q]; [done|]. injection Hq as ->. simpl.
    destruct (Hall e) as [->|Hlate]; [apply elem_of_cons; by left| |]; simpl.
    + by rewrite N.ltb_irrefl.
    + destruct (N.ltb_spec (fst e) t); [lia|done].
Qed.

Lemma taskQueue_finds_the_earliest
    (events : list (N * VideoEvent)) (t : N) (ev : VideoEvent) :
  (t, ev) ∈ events →
  (∀ e, e ∈ events → e = (t, ev) ∨ (t < fst e)%N) →
  ∀ q h, head q = Some h → (t < fst h)%N →
         head (foldl (λ q e, enqueue (fst e, Dispatch (snd e)) q) q events)
         = Some (t, Dispatch ev).
Proof.
  induction events as [|e events IH]; intros Hin Hall q h Hq Hlt; simpl.
  - by apply elem_of_nil in Hin.
  - destruct q as [|y q]; [done|]. injection Hq as ->.
    assert (Hrest : ∀ e', e' ∈ events → e' = (t, ev) ∨ (t < fst e')%N).
    { intros e' He'. apply Hall, elem_of_cons. by right. }
    destruct (Hall e) as [->|Hlate]; [apply elem_of_cons; by left| |].
    + apply taskQueue_keeps_the_earliest; [done|]. simpl.
      destruct (N.ltb_spec t (fst h)); [done|lia].
    + apply elem_of_cons in Hin as [Heq|Hin]; [subst e; simpl in Hlate; lia|].
      simpl. destruct (N.ltb_spec (fst e) (fst h)).
      * by apply (IH Hin Hrest _ (fst e, Dispatch (snd e))).
      * by apply (IH Hin Hrest _ h).
Qed.

(** X26.  An event of the video that comes before the timeout and before
    every other event decides the wait at its own time: the metadata
    resolves it, an error rejects it with [Video loading failed]; what the
    video or the timer does later changes nothing. *)
Theorem earliest_event_decides
    (events : list (N * VideoEvent)) (t : N) (ev : VideoEvent) :
  (t, ev) ∈ events →
  (t < 10000)%N →
  (∀ e, e ∈ events → e = (t, ev) ∨ (t < fst e)%N) →
  metadataWait events
  = Some (t, match ev with
             | loadedmetadata => Normal tt
             | error => Abrupt (new_Error "Video loading failed")
             end).
Proof.
  intros Hin Hearly Hfirst.
  unfold metadataWait, taskQueue. rewrite runQueue_listening.
  rewrite (taskQueue_finds_the_earliest events t ev Hin Hfirst
             [(TIMEOUT, TimerExpired)] (TIMEOUT, TimerExpired) eq_refl Hearly).
  by destruct ev.
Qed.

End WaitProperties.

(** ** The four treatments of the result card *)

Section TreatmentProperties.

Import ResultCard.

(** The lower-casing of the platform, whatever it is. *)
Variable toLowerCase : string → string.

(** X27.  Every label gets one of four treatments, chosen by what the
    platform lower-cases it to: [real] is shown as [Real] with a green bar,
    [fake] as [Fake] with a red bar, [suspicious] as [Suspicious] with a
    yellow bar, and every other label as [Unknown], with the yellow bar as
    well. *)
Theorem every_label_has_a_treatment (label : string) :
  (toLowerCase label = "real"
   ∧ getResultDisplay toLowerCase label
     = mkDisplay "✅" "Real" "text-green-400" "bg-green-900/20" "border-green-500/30"
   ∧ barColor toLowerCase label = "bg-green-500")
  ∨ (toLowerCase label = "fake"
     ∧ getResultDisplay toLowerCase label
       = mkDisplay "❌" "Fake" "text-red-400" "bg-red-900/20" "border-red-500/30"
     ∧ barColor toLowerCase label = "bg-red-500")
  ∨ (toLowerCase label = "suspicious"
     ∧ getResultDisplay toLowerCase label
       = mkDisplay "⚠️" "Suspicious" "text-yellow-400" "bg-yellow-900/20"
                   "border-yellow-500/30"
     ∧ barColor toLowerCase label = "bg-yellow-500")
  ∨ (toLowerCase label ≠ "real" ∧ toLowerCase label ≠ "fake"
     ∧ toLowerCase label ≠ "suspicious"
     ∧ getResultDisplay toLowerCase label
       = mkDisplay "❓" "Unknown" "text-gray-400" "bg-gray-900/20" "border-gray-500/30"
     ∧ barColor toLowerCase label = "bg-yellow-500").
Proof.
  unfold getResultDisplay, barColor.
  destruct (String.eqb_spec (toLowerCase label) "real") as [->|Hreal];
    [left; done|].
  destruct (String.eqb_spec (toLowerCase label) "fake") as [->|Hfake];
    [right; left; done|].
  destruct (String.eqb_spec (toLowerCase label) "suspicious") as [->|Hsusp];
    [right; right; left; done|].
  right. right. right. done.
Qed.

End TreatmentProperties.

(** ** The further properties on sample runs *)

(** The network is down: [fetch] rejects, and the caller gets what it
    threw. *)
Lemma client_passes_failures_on_example :
  fst (Api.analyzeImage "2024-05-01T10:00:00.000Z" MoreSamples.offline
         "data:image/jpeg;base64,AAAA" [])
  = Abrupt (ThrownObject (Some "TypeError") (Some "Failed to fetch")).
Proof.
  exact (proj1 (client_passes_failures_on "2024-05-01T10:00:00.000Z"
                  MoreSamples.offline
                  "data:image/jpeg;base64,AAAA" "data:video/mp4;base64,AAAA"
                  "video/mp4" [])
               (ThrownObject (Some "TypeError") (Some "Failed to fetch")) eq_refl).
Defined.

Lemma client_returns_only_successes_example :
  success (mkAnalysisResult true "Fake" 87 "T" None None) = true
  ∧ media_info (mkAnalysisResult true "Fake" 87 "T" None None) = None.
Proof.
  destruct (proj1 (client_returns_only_successes "2024-05-01T10:00:00.000Z"
                     (Samples.answering (Api.mkResponse 200 (Normal Samples.fakeResponse)))
                     "data:image/jpeg;base64,AAAA" "data:video/mp4;base64,AAAA"
                     "video/mp4" [])
                  (mkAnalysisResult true "Fake" 87 "T" None None) eq_refl)
    as (Hsuccess & Hmedia & _).
  exact (conj Hsuccess Hmedia).
Defined.

(** A second click on the scan button while the first scan is running. *)
Lemma scan_is_skipped_when_busy_example :
  App.handleWebcamAnalysis (MoreSamples.popupEnv Samples.serverError)
    (App.mkState None true "Analyzing image for deepfakes..."
                 (Some MoreSamples.camera) (Some (App.mkCanvas 320 240 None)) [])
  = (Normal tt,
     App.mkState None true "Analyzing image for deepfakes..."
                 (Some MoreSamples.camera) (Some (App.mkCanvas 320 240 None)) []).
Proof.
  refine (proj1 (scan_is_skipped_when_busy (MoreSamples.popupEnv Samples.serverError)
                   (App.mkState None true "Analyzing image for deepfakes..."
                      (Some MoreSamples.camera) (Some (App.mkCanvas 320 240 None)) [])
                   _)).
  left. reflexivity.
Defined.

Lemma scan_shows_the_result_example :
  let env := MoreSamples.popupEnv (Api.mkResponse 200 (Normal Samples.fakeResponse)) in
  let after := snd (App.handleWebcamAnalysis env (App.initial MoreSamples.camera)) in
  App.result after = Some (mkAnalysisResult true "Fake" 87 "T" None None)
  ∧ App.status after = "Analysis complete"
  ∧ App.canvasRef after
    = Some (App.mkCanvas 320 240
              (Some (App.mkDrawing MoreSamples.camera 0 0 320 240))).
Proof.
  intros env after.
  destruct (scan_shows_the_result env (App.initial MoreSamples.camera)
              MoreSamples.camera (App.mkCanvas 300 150 None)
              (mkAnalysisResult true "Fake" 87 "T" None None)
              eq_refl eq_refl eq_refl eq_refl eq_refl)
    as (_ & Hresult & Hstatus & _ & Hcanvas & _).
  exact (conj Hresult (conj Hstatus Hcanvas)).
Defined.

Lemma scan_failure_keeps_the_result_example :
  let env := MoreSamples.popupEnv Samples.serverError in
  let after := snd (App.handleWebcamAnalysis env (App.initial MoreSamples.camera)) in
  App.result after = None
  ∧ App.isAnalyzing after = false
  ∧ App.status after = "Analysis failed: Backend error: 500".
Proof.
  intros env after.
  destruct (scan_failure_keeps_the_result env (App.initial MoreSamples.camera)
              MoreSamples.camera (App.mkCanvas 300 150 None)
              (new_Error "Backend error: 500")
              eq_refl eq_refl eq_refl (or_intror (conj eq_refl eq_refl)))
    as (_ & Hresult & Hidle & Hstatus).
  exact (conj Hresult (conj Hidle Hstatus)).
Defined.

(** The backend never answers: the scan stays suspended with the popup
    busy. *)
Lemma handlers_release_the_busy_flag_example :
  App.isAnalyzing
    (snd (App.handleWebcamAnalysis MoreSamples.silentEnv
            (App.initial MoreSamples.camera))) = true.
Proof.
  destruct (handlers_release_the_busy_flag MoreSamples.silentEnv
              (App.initial MoreSamples.camera) MoreSamples.clip)
    as (_ & _ & _ & _ & Hpending & _).
  exact (Hpending eq_refl).
Defined.

Lemma unreadable_file_is_not_sent_example :
  let env := MoreSamples.popupEnv (Api.mkResponse 200 (Normal Samples.fakeResponse)) in
  let after := snd (App.handleFileUpload env MoreSamples.broken
                      (App.initial MoreSamples.camera)) in
  App.network after = []
  ∧ App.status after = "Upload failed: Failed to read file".
Proof.
  intros env after.
  destruct (unreadable_file_is_not_sent env (App.initial MoreSamples.camera)
              MoreSamples.broken eq_refl)
    as (_ & Hnetwork & _ & _ & Hstatus).
  exact (conj Hnetwork Hstatus).
Defined.

Lemma upload_sends_the_file_example :
  let env := MoreSamples.popupEnv (Api.mkResponse 200 (Normal Samples.fakeResponse)) in
  let after := snd (App.handleFileUpload env MoreSamples.clip
                      (App.initial MoreSamples.camera)) in
  App.result after = Some (mkAnalysisResult true "Fake" 87 "T" None None)
  ∧ App.status after = "Analysis complete".
Proof.
  intros env after.
  destruct (upload_sends_the_file env (App.initial MoreSamples.camera)
              MoreSamples.clip "data:video/mp4;base64,AAAA" eq_refl)
    as (_ & Hstored & _).
  exact (Hstored (mkAnalysisResult true "Fake" 87 "T" None None) eq_refl).
Defined.

(** No file is selected: the button is disabled and a click does
    nothing. *)
Lemma upload_button_matches_click_example :
  App.uploadClicked (MoreSamples.popupEnv Samples.serverError)
    (UploadForm.mkState None (Some EmptyString)) (App.initial MoreSamples.camera)
  = (Normal tt, App.initial MoreSamples.camera).
Proof.
  exact (proj1 (upload_button_matches_click (MoreSamples.popupEnv Samples.serverError)
                  (UploadForm.mkState None (Some EmptyString))
                  (App.initial MoreSamples.camera)) eq_refl).
Defined.

Lemma formatFileSize_example : UploadForm.formatFileSize 5242 = "0.00 MB".
Proof.
  apply (proj1 (formatFileSize_rounds_to_hundredths 5242 3)). lia.
Defined.


Lemma startCamera_activates_the_camera_example :
  let env := MoreSamples.webPage [(120%N, Webcam.loadedmetadata)] in
  let after := snd (Webcam.startCamera env Samples.popup) in
  Webcam.isCameraActive after = true
  ∧ Webcam.permissionStatus after = Webcam.granted
  ∧ Webcam.streamRef after = Some [4; 5].
Proof.
  intros env after.
  destruct (startCamera_activates_the_camera env Samples.popup
              (λ _, Normal [4; 5]) [4; 5] (Webcam.mkVideo None) 120%N
              (or_introl eq_refl) eq_refl eq_refl eq_refl eq_refl eq_refl)
    as (_ & Hactive & Hgranted & _ & _ & Hstream & _).
  exact (conj Hactive (conj Hgranted Hstream)).
Defined.

(** The video stays silent: after the timeout the camera counts as
    inactive, and both tracks are still live. *)
Lemma failed_start_keeps_the_stream_example :
  let env := MoreSamples.webPage [] in
  let after := snd (Webcam.startCamera env Samples.popup) in
  Webcam.isCameraActive after = false
  ∧ Webcam.streamRef after = Some [4; 5]
  ∧ Webcam.trackStore after !! 4 = Some Webcam.live.
Proof.
  intros env after.
  destruct (failed_start_keeps_the_stream env Samples.popup
              (λ _, Normal [4; 5]) [4; 5] (Webcam.mkVideo None) 10000%N
              (new_Error "Video loading timeout")
              (or_introl eq_refl) eq_refl eq_refl eq_refl (or_introl eq_refl))
    as (_ & Hinactive & _ & _ & Hstream & _ & Hlive & _).
  refine (conj Hinactive (conj Hstream (Hlive 4 _))).
  apply elem_of_cons. by left.
Defined.

Lemma stop_releases_what_start_acquired_example :
  let env := MoreSamples.webPage [(120%N, Webcam.loadedmetadata)] in
  let stopped := snd (Webcam.stopCamera (snd (Webcam.startCamera env Samples.popup))) in
  Webcam.trackStore stopped !! 5 = Some Webcam.ended
  ∧ Webcam.streamRef stopped = None.
Proof.
  intros env stopped.
  destruct (stop_releases_what_start_acquired env Samples.popup
              (λ _, Normal [4; 5]) [4; 5] (Webcam.mkVideo None) 120%N
              (or_introl eq_refl) eq_refl eq_refl eq_refl eq_refl eq_refl)
    as (Hended & Hstream & _).
  refine (conj (Hended 5 _) Hstream).
  apply elem_of_cons. right. apply elem_of_cons. by left.
Defined.

Lemma refused_permission_asks_no_camera_example :
  let after := snd (Webcam.startCamera MoreSamples.refusedEnv Samples.popup) in
  Webcam.permissionStatus after = Webcam.denied
  ∧ Webcam.streamRef after = None
  ∧ Webcam.offersPermissionPage MoreSamples.refusedEnv after false = true.
Proof.
  intros after.
  destruct (refused_permission_asks_no_camera MoreSamples.refusedEnv Samples.popup
              (λ _, Normal [1; 2]) eq_refl (λ _, eq_refl) (λ _, eq_refl) eq_refl)
    as (_ & Hdenied & _ & _ & Hstream & _ & _ & _ & Hbutton).
  exact (conj Hdenied (conj Hstream (Hbutton false))).
Defined.

Lemma missing_camera_api_is_reported_example :
  let env := Webcam.mkEnv None None [] (Normal tt) in
  Webcam.cameraError (snd (Webcam.startCamera env Samples.popup))
  = Some "Camera API not supported in this browser".
Proof.
  intros env.
  destruct (missing_camera_api_is_reported env Samples.popup eq_refl)
    as (_ & Herror & _).
  exact Herror.
Defined.

(** A track of another stream is live before and after the camera of the
    popup is stopped. *)
Lemma other_tracks_are_spared_example :
  let s := Webcam.mkState true None false Webcam.granted (Some [1; 2])
             (Some (Webcam.mkVideo (Some [1; 2])))
             (<[9 := Webcam.live]> (<[2 := Webcam.live]> (<[1 := Webcam.live]> ∅)))
             "Camera ready" [] in
  Webcam.trackStore (snd (Webcam.stopCamera s)) !! 9 = Some Webcam.live.
Proof.
  intros s.
  refine (eq_trans (proj1 (other_tracks_are_spared s 9 _)) eq_refl).
  intros stream [= <-] Hin.
  apply elem_of_cons in Hin as [Hin|Hin]; [discriminate|].
  apply elem_of_cons in Hin as [Hin|Hin]; [discriminate|].
  by apply elem_of_nil in Hin.
Defined.

Lemma unmount_only_ends_the_tracks_example :
  let s := snd (Webcam.startCamera
                  (MoreSamples.webPage [(120%N, Webcam.loadedmetadata)]) Samples.popup) in
  Webcam.trackStore (snd (Webcam.unmount s)) !! 4 = Some Webcam.ended.
Proof.
  intros s.
  destruct (unmount_only_ends_the_tracks s) as (_ & Hended & _).
  apply (Hended [4; 5] 4 eq_refl). apply elem_of_cons. by left.
Defined.

Lemma other_messages_are_ignored_example :
  Webcam.receive (Samples.rejecting "NotAllowedError") Samples.popup
    (Webcam.mkMessage "ping" true None) Samples.popup
  = (Normal tt, Samples.popup).
Proof.
  apply (other_messages_are_ignored (Samples.rejecting "NotAllowedError")).
  left. discriminate.
Defined.

Lemma refusal_update_offers_the_page_example :
  let env := Samples.rejecting "NotAllowedError" in
  let after := snd (Webcam.receive env Samples.popup
                      (Webcam.mkMessage "cameraPermissionUpdate" false (Some EmptyString))
                      Samples.popup) in
  Webcam.permissionStatus after = Webcam.denied
  ∧ Webcam.cameraError after = Some "Camera permission denied"
  ∧ Webcam.offersPermissionPage env after false = true.
Proof.
  intros env after.
  destruct (refusal_update_offers_the_page env Samples.popup Samples.popup
              (Webcam.mkMessage "cameraPermissionUpdate" false (Some EmptyString))
              eq_refl eq_refl eq_refl)
    as (Hdenied & Herror & _ & Hbutton).
  exact (conj Hdenied (conj Herror (Hbutton false))).
Defined.

(** A web page has no extension API: a click on the button would do
    nothing. *)
Lemma permission_page_needs_the_tabs_api_example :
  Webcam.openPermissionPage (MoreSamples.webPage []) Samples.popup
  = (Normal tt, Samples.popup).
Proof.
  apply (proj1 (permission_page_needs_the_tabs_api (MoreSamples.webPage [])
                  Samples.popup)).
  left. reflexivity.
Defined.

(** The metadata comes after 120 ms, an error after 300 ms: the wait is
    over at 120 ms, resolved. *)
Lemma earliest_event_decides_example :
  Webcam.metadataWait [(120%N, Webcam.loadedmetadata); (300%N, Webcam.error)]
  = Some (120%N, Normal tt).
Proof.
  apply (earliest_event_decides
           [(120%N, Webcam.loadedmetadata); (300%N, Webcam.error)]
           120%N Webcam.loadedmetadata).
  - apply elem_of_cons. by left.
  - lia.
  - intros e He. apply elem_of_cons in He as [->|He]; [by left|].
    apply list_elem_of_singleton in He. subst e. right. simpl. lia.
Defined.
